(** * box2c: joint definitions (include/box2d/joint_types.h) and the car
      sample (samples/car.cpp)

    A shallow embedding of the joint-definition structures and of the [Car]
    sample class, with the properties of the joint subsystem that the
    specification states about them.

    Layout: single-precision floats, handles, the seven joint definitions,
    the box2d API as the sample sees it (a small program monad over external
    calls), the [Car] methods, the joint registry and solver pieces described
    by the specification, and then the theorems. *)

From Stdlib Require Import ZArith QArith Lqa Bool String List Lia.
From Stdlib Require Import Floats.SpecFloat.
From stdpp Require Import base option list gmap.

Local Open Scope Z_scope.

(* ===================================================================== *)
(** * Single-precision floating point                                     *)
(* ===================================================================== *)

(** C [float] is IEEE-754 binary32: 24 bits of precision, exponents up to
    128, round to nearest even.  Values are [spec_float]s and the operations
    are the ones of [SpecFloat] at that format, so NaN, the infinities and
    the two zeros are all there. *)
Module F32.

Definition prec : Z := 24.
Definition emax : Z := 128.

Definition float : Type := spec_float.

Definition mul : float -> float -> float := SFmul prec emax.
Definition div : float -> float -> float := SFdiv prec emax.
Definition add : float -> float -> float := SFadd prec emax.
Definition sub : float -> float -> float := SFsub prec emax.
Definition neg : float -> float := SFopp.
Definition abs : float -> float := SFabs.

Definition eqb : float -> float -> bool := SFeqb.
Definition ltb : float -> float -> bool := SFltb.
Definition leb : float -> float -> bool := SFleb.

(** [of_Z n] is the float nearest to the integer [n]. *)
Definition of_Z (n : Z) : float := binary_normalize prec emax n 0 false.

(** A decimal literal [m / 10^k] written with the [f] suffix: the binary32
    value nearest to it.  Both [m] and [10^k] are exact for the literals
    of the sample, so the correctly rounded quotient is that value. *)
Definition dec (m : Z) (k : nat) : float :=
  div (of_Z m) (of_Z (10 ^ Z.of_nat k)).

Definition zero : float := S754_zero false.
Definition one : float := of_Z 1.

Definition is_nan (x : float) : bool :=
  match x with S754_nan => true | _ => false end.

(** The larger of two floats, [a > b ? a : b]. *)
Definition max (a b : float) : float :=
  if ltb b a then a else b.

End F32.

Abbreviation float := F32.float.

(* ===================================================================== *)
(** * Handles and vectors                                                 *)
(* ===================================================================== *)

(** [b2Vec2]: a pair of floats, initialised positionally as [{x, y}]. *)
Record b2Vec2 : Type := mkVec2 { x : float; y : float }.

(** Modelled from the spec: the handle types and [B2_IS_NULL] come from
    box2d/id.h, which is not part of the files at hand.  The specification
    describes body and joint references as opaque integer handles with a
    generation counter (an index into an arena plus a revision); a
    value-initialised handle ([= {}], all members zero) is the null handle,
    and [B2_IS_NULL] tests the index against zero. *)
Module b2WorldId.
Record t : Type := mk { index1 : Z; revision : Z }.
End b2WorldId.
Abbreviation b2WorldId := b2WorldId.t.

Module b2BodyId.
Record t : Type := mk { index1 : Z; world0 : Z; revision : Z }.
  (** [= {}] *)
Definition zero_init : t := mk 0 0 0.
Definition B2_IS_NULL (id : t) : bool := index1 id =? 0.
Definition eqb (a b : t) : bool :=
    (index1 a =? index1 b) && (world0 a =? world0 b) && (revision a =? revision b).
End b2BodyId.
Abbreviation b2BodyId := b2BodyId.t.

Module b2ShapeId.
Record t : Type := mk { index1 : Z; world0 : Z; revision : Z }.
End b2ShapeId.
Abbreviation b2ShapeId := b2ShapeId.t.

Module b2JointId.
Record t : Type := mk { index1 : Z; world0 : Z; revision : Z }.
  (** [= {}] *)
Definition zero_init : t := mk 0 0 0.
Definition B2_IS_NULL (id : t) : bool := index1 id =? 0.
Definition eqb (a b : t) : bool :=
    (index1 a =? index1 b) && (world0 a =? world0 b) && (revision a =? revision b).
End b2JointId.
Abbreviation b2JointId := b2JointId.t.

(** [void*]: an address, 0 for the null pointer. *)
Definition void_ptr : Type := Z.

(* ===================================================================== *)
(** * include/box2d/joint_types.h                                         *)
(* ===================================================================== *)

(** [enum b2JointType] *)
Inductive b2JointType : Type :=
| b2_distanceJoint
| b2_motorJoint
| b2_mouseJoint
| b2_prismaticJoint
| b2_revoluteJoint
| b2_weldJoint
| b2_wheelJoint.

Definition all_joint_types : list b2JointType :=
  [b2_distanceJoint; b2_motorJoint; b2_mouseJoint; b2_prismaticJoint;
   b2_revoluteJoint; b2_weldJoint; b2_wheelJoint].

(** ** The seven definition structures, member by member *)

Module b2DistanceJointDef.
Record t : Type := mk {
    bodyIdA : b2BodyId;
    bodyIdB : b2BodyId;
    localAnchorA : b2Vec2;
    localAnchorB : b2Vec2;
    length : float;
    enableSpring : bool;
    hertz : float;
    dampingRatio : float;
    enableLimit : bool;
    minLength : float;
    maxLength : float;
    enableMotor : bool;
    maxMotorForce : float;
    motorSpeed : float;
    collideConnected : bool;
    userData : void_ptr }.

Definition with_limits (lo hi : float) (d : t) : t :=
    mk (bodyIdA d) (bodyIdB d) (localAnchorA d) (localAnchorB d) (length d)
       (enableSpring d) (hertz d) (dampingRatio d) (enableLimit d) lo hi
       (enableMotor d) (maxMotorForce d) (motorSpeed d) (collideConnected d)
       (userData d).
End b2DistanceJointDef.
Abbreviation b2DistanceJointDef := b2DistanceJointDef.t.

Module b2MotorJointDef.
Record t : Type := mk {
    bodyIdA : b2BodyId;
    bodyIdB : b2BodyId;
    linearOffset : b2Vec2;
    angularOffset : float;
    maxForce : float;
    maxTorque : float;
    correctionFactor : float;
    collideConnected : bool;
    userData : void_ptr }.
End b2MotorJointDef.
Abbreviation b2MotorJointDef := b2MotorJointDef.t.

Module b2MouseJointDef.
Record t : Type := mk {
    bodyIdA : b2BodyId;
    bodyIdB : b2BodyId;
    target : b2Vec2;
    hertz : float;
    dampingRatio : float;
    maxForce : float;
    collideConnected : bool;
    userData : void_ptr }.
End b2MouseJointDef.
Abbreviation b2MouseJointDef := b2MouseJointDef.t.

Module b2PrismaticJointDef.
Record t : Type := mk {
    bodyIdA : b2BodyId;
    bodyIdB : b2BodyId;
    localAnchorA : b2Vec2;
    localAnchorB : b2Vec2;
    localAxisA : b2Vec2;
    referenceAngle : float;
    enableSpring : bool;
    hertz : float;
    dampingRatio : float;
    enableLimit : bool;
    lowerTranslation : float;
    upperTranslation : float;
    enableMotor : bool;
    maxMotorForce : float;
    motorSpeed : float;
    collideConnected : bool;
    userData : void_ptr }.

Definition with_limits (lo hi : float) (d : t) : t :=
    mk (bodyIdA d) (bodyIdB d) (localAnchorA d) (localAnchorB d) (localAxisA d)
       (referenceAngle d) (enableSpring d) (hertz d) (dampingRatio d)
       (enableLimit d) lo hi (enableMotor d) (maxMotorForce d) (motorSpeed d)
       (collideConnected d) (userData d).
End b2PrismaticJointDef.
Abbreviation b2PrismaticJointDef := b2PrismaticJointDef.t.

Module b2RevoluteJointDef.
Record t : Type := mk {
    bodyIdA : b2BodyId;
    bodyIdB : b2BodyId;
    localAnchorA : b2Vec2;
    localAnchorB : b2Vec2;
    referenceAngle : float;
    enableSpring : bool;
    hertz : float;
    dampingRatio : float;
    enableLimit : bool;
    lowerAngle : float;
    upperAngle : float;
    enableMotor : bool;
    maxMotorTorque : float;
    motorSpeed : float;
    drawSize : float;
    collideConnected : bool;
    userData : void_ptr }.

Definition with_limits (lo hi : float) (d : t) : t :=
    mk (bodyIdA d) (bodyIdB d) (localAnchorA d) (localAnchorB d)
       (referenceAngle d) (enableSpring d) (hertz d) (dampingRatio d)
       (enableLimit d) lo hi (enableMotor d) (maxMotorTorque d) (motorSpeed d)
       (drawSize d) (collideConnected d) (userData d).
End b2RevoluteJointDef.
Abbreviation b2RevoluteJointDef := b2RevoluteJointDef.t.

Module b2WeldJointDef.
Record t : Type := mk {
    bodyIdA : b2BodyId;
    bodyIdB : b2BodyId;
    localAnchorA : b2Vec2;
    localAnchorB : b2Vec2;
    referenceAngle : float;
    linearHertz : float;
    angularHertz : float;
    linearDampingRatio : float;
    angularDampingRatio : float;
    collideConnected : bool;
    userData : void_ptr }.
End b2WeldJointDef.
Abbreviation b2WeldJointDef := b2WeldJointDef.t.

Module b2WheelJointDef.
Record t : Type := mk {
    bodyIdA : b2BodyId;
    bodyIdB : b2BodyId;
    localAnchorA : b2Vec2;
    localAnchorB : b2Vec2;
    localAxisA : b2Vec2;
    enableSpring : bool;
    hertz : float;
    dampingRatio : float;
    enableLimit : bool;
    lowerTranslation : float;
    upperTranslation : float;
    enableMotor : bool;
    maxMotorTorque : float;
    motorSpeed : float;
    collideConnected : bool;
    userData : void_ptr }.

  (** Member assignment [d.f = v], one function per member the sample or
      the setters write. *)
Definition with_bodyIdA (v : b2BodyId) (d : t) : t :=
    mk v (bodyIdB d) (localAnchorA d) (localAnchorB d) (localAxisA d)
       (enableSpring d) (hertz d) (dampingRatio d) (enableLimit d)
       (lowerTranslation d) (upperTranslation d) (enableMotor d)
       (maxMotorTorque d) (motorSpeed d) (collideConnected d) (userData d).
Definition with_bodyIdB (v : b2BodyId) (d : t) : t :=
    mk (bodyIdA d) v (localAnchorA d) (localAnchorB d) (localAxisA d)
       (enableSpring d) (hertz d) (dampingRatio d) (enableLimit d)
       (lowerTranslation d) (upperTranslation d) (enableMotor d)
       (maxMotorTorque d) (motorSpeed d) (collideConnected d) (userData d).
Definition with_localAnchorA (v : b2Vec2) (d : t) : t :=
    mk (bodyIdA d) (bodyIdB d) v (localAnchorB d) (localAxisA d)
       (enableSpring d) (hertz d) (dampingRatio d) (enableLimit d)
       (lowerTranslation d) (upperTranslation d) (enableMotor d)
       (maxMotorTorque d) (motorSpeed d) (collideConnected d) (userData d).
Definition with_localAnchorB (v : b2Vec2) (d : t) : t :=
    mk (bodyIdA d) (bodyIdB d) (localAnchorA d) v (localAxisA d)
       (enableSpring d) (hertz d) (dampingRatio d) (enableLimit d)
       (lowerTranslation d) (upperTranslation d) (enableMotor d)
       (maxMotorTorque d) (motorSpeed d) (collideConnected d) (userData d).
Definition with_localAxisA (v : b2Vec2) (d : t) : t :=
    mk (bodyIdA d) (bodyIdB d) (localAnchorA d) (localAnchorB d) v
       (enableSpring d) (hertz d) (dampingRatio d) (enableLimit d)
       (lowerTranslation d) (upperTranslation d) (enableMotor d)
       (maxMotorTorque d) (motorSpeed d) (collideConnected d) (userData d).
Definition with_hertz (v : float) (d : t) : t :=
    mk (bodyIdA d) (bodyIdB d) (localAnchorA d) (localAnchorB d) (localAxisA d)
       (enableSpring d) v (dampingRatio d) (enableLimit d)
       (lowerTranslation d) (upperTranslation d) (enableMotor d)
       (maxMotorTorque d) (motorSpeed d) (collideConnected d) (userData d).
Definition with_dampingRatio (v : float) (d : t) : t :=
    mk (bodyIdA d) (bodyIdB d) (localAnchorA d) (localAnchorB d) (localAxisA d)
       (enableSpring d) (hertz d) v (enableLimit d)
       (lowerTranslation d) (upperTranslation d) (enableMotor d)
       (maxMotorTorque d) (motorSpeed d) (collideConnected d) (userData d).
Definition with_enableLimit (v : bool) (d : t) : t :=
    mk (bodyIdA d) (bodyIdB d) (localAnchorA d) (localAnchorB d) (localAxisA d)
       (enableSpring d) (hertz d) (dampingRatio d) v
       (lowerTranslation d) (upperTranslation d) (enableMotor d)
       (maxMotorTorque d) (motorSpeed d) (collideConnected d) (userData d).
Definition with_lowerTranslation (v : float) (d : t) : t :=
    mk (bodyIdA d) (bodyIdB d) (localAnchorA d) (localAnchorB d) (localAxisA d)
       (enableSpring d) (hertz d) (dampingRatio d) (enableLimit d)
       v (upperTranslation d) (enableMotor d)
       (maxMotorTorque d) (motorSpeed d) (collideConnected d) (userData d).
Definition with_upperTranslation (v : float) (d : t) : t :=
    mk (bodyIdA d) (bodyIdB d) (localAnchorA d) (localAnchorB d) (localAxisA d)
       (enableSpring d) (hertz d) (dampingRatio d) (enableLimit d)
       (lowerTranslation d) v (enableMotor d)
       (maxMotorTorque d) (motorSpeed d) (collideConnected d) (userData d).
Definition with_enableMotor (v : bool) (d : t) : t :=
    mk (bodyIdA d) (bodyIdB d) (localAnchorA d) (localAnchorB d) (localAxisA d)
       (enableSpring d) (hertz d) (dampingRatio d) (enableLimit d)
       (lowerTranslation d) (upperTranslation d) v
       (maxMotorTorque d) (motorSpeed d) (collideConnected d) (userData d).
Definition with_maxMotorTorque (v : float) (d : t) : t :=
    mk (bodyIdA d) (bodyIdB d) (localAnchorA d) (localAnchorB d) (localAxisA d)
       (enableSpring d) (hertz d) (dampingRatio d) (enableLimit d)
       (lowerTranslation d) (upperTranslation d) (enableMotor d)
       v (motorSpeed d) (collideConnected d) (userData d).
Definition with_motorSpeed (v : float) (d : t) : t :=
    mk (bodyIdA d) (bodyIdB d) (localAnchorA d) (localAnchorB d) (localAxisA d)
       (enableSpring d) (hertz d) (dampingRatio d) (enableLimit d)
       (lowerTranslation d) (upperTranslation d) (enableMotor d)
       (maxMotorTorque d) v (collideConnected d) (userData d).

Definition with_limits (lo hi : float) (d : t) : t :=
    with_upperTranslation hi (with_lowerTranslation lo d).
End b2WheelJointDef.
Abbreviation b2WheelJointDef := b2WheelJointDef.t.

(** A joint definition of any of the seven kinds. *)
Inductive b2JointDef : Type :=
| DistanceDef (d : b2DistanceJointDef)
| MotorDef (d : b2MotorJointDef)
| MouseDef (d : b2MouseJointDef)
| PrismaticDef (d : b2PrismaticJointDef)
| RevoluteDef (d : b2RevoluteJointDef)
| WeldDef (d : b2WeldJointDef)
| WheelDef (d : b2WheelJointDef).

Definition joint_type_of (d : b2JointDef) : b2JointType :=
  match d with
  | DistanceDef _ => b2_distanceJoint
  | MotorDef _ => b2_motorJoint
  | MouseDef _ => b2_mouseJoint
  | PrismaticDef _ => b2_prismaticJoint
  | RevoluteDef _ => b2_revoluteJoint
  | WeldDef _ => b2_weldJoint
  | WheelDef _ => b2_wheelJoint
  end.

(** ** The member declarations of the header

    The same seven structures as declared: for every member its C type, its
    name and the documentation line above it.  Claims about which members a
    definition has, and about the units the header documents, are stated
    over these tables. *)

Inductive ctype : Type :=
| c_b2BodyId
| c_b2Vec2
| c_float
| c_bool
| c_void_ptr.

Definition ctype_eqb (a b : ctype) : bool :=
  match a, b with
  | c_b2BodyId, c_b2BodyId | c_b2Vec2, c_b2Vec2 | c_float, c_float
  | c_bool, c_bool | c_void_ptr, c_void_ptr => true
  | _, _ => false
  end.

Record member : Type := MEMBER { m_type : ctype; m_name : string; m_doc : string }.

Local Open Scope string_scope.

Definition b2DistanceJointDef_members : list member :=
  [ MEMBER c_b2BodyId "bodyIdA" "The first attached body";
    MEMBER c_b2BodyId "bodyIdB" "The second attached body";
    MEMBER c_b2Vec2 "localAnchorA" "The local anchor point relative to bodyA's origin";
    MEMBER c_b2Vec2 "localAnchorB" "The local anchor point relative to bodyB's origin";
    MEMBER c_float "length" "The rest length of this joint. Clamped to a stable minimum value.";
    MEMBER c_bool "enableSpring" "Enable the distance constraint to behave like a spring. If false then the distance joint will be rigid, overriding the limit and motor.";
    MEMBER c_float "hertz" "The spring linear stiffness Hertz, cycles per second";
    MEMBER c_float "dampingRatio" "The spring linear damping ratio, non-dimensional";
    MEMBER c_bool "enableLimit" "Enable/disable the joint limit";
    MEMBER c_float "minLength" "Minimum length. Clamped to a stable minimum value.";
    MEMBER c_float "maxLength" "Maximum length. Must be greater than or equal to the minimum length.";
    MEMBER c_bool "enableMotor" "Enable/disable the joint motor";
    MEMBER c_float "maxMotorForce" "The maximum motor force, usually in newtons";
    MEMBER c_float "motorSpeed" "The desired motor speed, usually in meters per second";
    MEMBER c_bool "collideConnected" "Set this flag to true if the attached bodies should collide";
    MEMBER c_void_ptr "userData" "User data pointer" ].

Definition b2MotorJointDef_members : list member :=
  [ MEMBER c_b2BodyId "bodyIdA" "The first attached body";
    MEMBER c_b2BodyId "bodyIdB" "The second attached body";
    MEMBER c_b2Vec2 "linearOffset" "Position of bodyB minus the position of bodyA, in bodyA's frame";
    MEMBER c_float "angularOffset" "The bodyB angle minus bodyA angle in radians";
    MEMBER c_float "maxForce" "The maximum motor force in newtons";
    MEMBER c_float "maxTorque" "The maximum motor torque in newton-meters";
    MEMBER c_float "correctionFactor" "Position correction factor in the range [0,1]";
    MEMBER c_bool "collideConnected" "Set this flag to true if the attached bodies should collide";
    MEMBER c_void_ptr "userData" "User data pointer" ].

Definition b2MouseJointDef_members : list member :=
  [ MEMBER c_b2BodyId "bodyIdA" "The first attached body.";
    MEMBER c_b2BodyId "bodyIdB" "The second attached body.";
    MEMBER c_b2Vec2 "target" "The initial target point in world space";
    MEMBER c_float "hertz" "Stiffness in hertz";
    MEMBER c_float "dampingRatio" "Damping ratio, non-dimensional";
    MEMBER c_float "maxForce" "Maximum force, typically in newtons";
    MEMBER c_bool "collideConnected" "Set this flag to true if the attached bodies should collide.";
    MEMBER c_void_ptr "userData" "User data pointer" ].

Definition b2PrismaticJointDef_members : list member :=
  [ MEMBER c_b2BodyId "bodyIdA" "The first attached body";
    MEMBER c_b2BodyId "bodyIdB" "The second attached body";
    MEMBER c_b2Vec2 "localAnchorA" "The local anchor point relative to bodyA's origin";
    MEMBER c_b2Vec2 "localAnchorB" "The local anchor point relative to bodyB's origin";
    MEMBER c_b2Vec2 "localAxisA" "The local translation unit axis in bodyA";
    MEMBER c_float "referenceAngle" "The constrained angle between the bodies: bodyB_angle - bodyA_angle";
    MEMBER c_bool "enableSpring" "Enable a linear spring along the prismatic joint axis";
    MEMBER c_float "hertz" "The spring stiffness Hertz, cycles per second";
    MEMBER c_float "dampingRatio" "The spring damping ratio, non-dimensional";
    MEMBER c_bool "enableLimit" "Enable/disable the joint limit";
    MEMBER c_float "lowerTranslation" "The lower translation limit";
    MEMBER c_float "upperTranslation" "The upper translation limit";
    MEMBER c_bool "enableMotor" "Enable/disable the joint motor";
    MEMBER c_float "maxMotorForce" "The maximum motor force, typically in newtons";
    MEMBER c_float "motorSpeed" "The desired motor speed, typically in meters per second";
    MEMBER c_bool "collideConnected" "Set this flag to true if the attached bodies should collide";
    MEMBER c_void_ptr "userData" "User data pointer" ].

Definition b2RevoluteJointDef_members : list member :=
  [ MEMBER c_b2BodyId "bodyIdA" "The first attached body";
    MEMBER c_b2BodyId "bodyIdB" "The second attached body";
    MEMBER c_b2Vec2 "localAnchorA" "The local anchor point relative to bodyA's origin";
    MEMBER c_b2Vec2 "localAnchorB" "The local anchor point relative to bodyB's origin";
    MEMBER c_float "referenceAngle" "The bodyB angle minus bodyA angle in the reference state (radians). This defines the zero angle for the joint limit.";
    MEMBER c_bool "enableSpring" "Enable a rotational spring on the revolute hinge axis";
    MEMBER c_float "hertz" "The spring stiffness Hertz, cycles per second";
    MEMBER c_float "dampingRatio" "The spring damping ratio, non-dimensional";
    MEMBER c_bool "enableLimit" "A flag to enable joint limits";
    MEMBER c_float "lowerAngle" "The lower angle for the joint limit in radians";
    MEMBER c_float "upperAngle" "The upper angle for the joint limit in radians";
    MEMBER c_bool "enableMotor" "A flag to enable the joint motor";
    MEMBER c_float "maxMotorTorque" "The maximum motor torque, typically in newton-meters";
    MEMBER c_float "motorSpeed" "The desired motor speed in radians per second";
    MEMBER c_float "drawSize" "Scale the debug draw";
    MEMBER c_bool "collideConnected" "Set this flag to true if the attached bodies should collide";
    MEMBER c_void_ptr "userData" "User data pointer" ].

Definition b2WeldJointDef_members : list member :=
  [ MEMBER c_b2BodyId "bodyIdA" "The first attached body";
    MEMBER c_b2BodyId "bodyIdB" "The second attached body";
    MEMBER c_b2Vec2 "localAnchorA" "The local anchor point relative to bodyA's origin";
    MEMBER c_b2Vec2 "localAnchorB" "The local anchor point relative to bodyB's origin";
    MEMBER c_float "referenceAngle" "The bodyB angle minus bodyA angle in the reference state (radians)";
    MEMBER c_float "linearHertz" "Linear stiffness expressed as Hertz (cycles per second). Use zero for maximum stiffness.";
    MEMBER c_float "angularHertz" "Angular stiffness as Hertz (cycles per second). Use zero for maximum stiffness.";
    MEMBER c_float "linearDampingRatio" "Linear damping ratio, non-dimensional. Use 1 for critical damping.";
    MEMBER c_float "angularDampingRatio" "Linear damping ratio, non-dimensional. Use 1 for critical damping.";
    MEMBER c_bool "collideConnected" "Set this flag to true if the attached bodies should collide";
    MEMBER c_void_ptr "userData" "User data pointer" ].

Definition b2WheelJointDef_members : list member :=
  [ MEMBER c_b2BodyId "bodyIdA" "The first attached body";
    MEMBER c_b2BodyId "bodyIdB" "The second attached body";
    MEMBER c_b2Vec2 "localAnchorA" "The local anchor point relative to bodyA's origin";
    MEMBER c_b2Vec2 "localAnchorB" "The local anchor point relative to bodyB's origin";
    MEMBER c_b2Vec2 "localAxisA" "The local translation unit axis in bodyA";
    MEMBER c_bool "enableSpring" "Enable a linear spring along the local axis";
    MEMBER c_float "hertz" "Spring stiffness in Hertz";
    MEMBER c_float "dampingRatio" "Spring damping ratio, non-dimensional";
    MEMBER c_bool "enableLimit" "Enable/disable the joint linear limit";
    MEMBER c_float "lowerTranslation" "The lower translation limit";
    MEMBER c_float "upperTranslation" "The upper translation limit";
    MEMBER c_bool "enableMotor" "Enable/disable the joint rotational motor";
    MEMBER c_float "maxMotorTorque" "The maximum motor torque, typically in newton-meters";
    MEMBER c_float "motorSpeed" "The desired motor speed in radians per second";
    MEMBER c_bool "collideConnected" "Set this flag to true if the attached bodies should collide";
    MEMBER c_void_ptr "userData" "User data pointer" ].

(** The definition structure that goes with each joint type. *)
Definition members_of (ty : b2JointType) : list member :=
  match ty with
  | b2_distanceJoint => b2DistanceJointDef_members
  | b2_motorJoint => b2MotorJointDef_members
  | b2_mouseJoint => b2MouseJointDef_members
  | b2_prismaticJoint => b2PrismaticJointDef_members
  | b2_revoluteJoint => b2RevoluteJointDef_members
  | b2_weldJoint => b2WeldJointDef_members
  | b2_wheelJoint => b2WheelJointDef_members
  end.

(** [find_member ms n]: the declaration of the member called [n]. *)
Fixpoint find_member (ms : list member) (n : string) : option member :=
  match ms with
  | [] => None
  | m :: rest => if String.eqb (m_name m) n then Some m else find_member rest n
  end.

(** [has_member ms ty n]: there is a member [n], and it has type [ty]. *)
Definition has_member (ms : list member) (ty : ctype) (n : string) : bool :=
  match find_member ms n with
  | Some m => ctype_eqb (m_type m) ty
  | None => false
  end.

(** The members a definition is said to have in common with all others. *)
Definition has_body_refs (ms : list member) : bool :=
  has_member ms c_b2BodyId "bodyIdA" && has_member ms c_b2BodyId "bodyIdB".

Definition has_local_anchors (ms : list member) : bool :=
  has_member ms c_b2Vec2 "localAnchorA" && has_member ms c_b2Vec2 "localAnchorB".

Definition has_collide_flag (ms : list member) : bool :=
  has_member ms c_bool "collideConnected".

Definition has_user_data (ms : list member) : bool :=
  has_member ms c_void_ptr "userData".

(** [mentions w doc]: the word [w] occurs in the documentation line. *)
Definition mentions (w doc : string) : bool :=
  match String.index 0 w doc with
  | Some _ => true
  | None => false
  end.

(** Units the header documents for motor members. *)
Inductive unit_of_measure : Type :=
| newtons
| newton_meters
| meters_per_second
| radians_per_second.

Definition documented_unit (m : member) : option unit_of_measure :=
  if mentions "newton-meters" (m_doc m) then Some newton_meters
  else if mentions "newtons" (m_doc m) then Some newtons
  else if mentions "meters per second" (m_doc m) then Some meters_per_second
  else if mentions "radians per second" (m_doc m) then Some radians_per_second
  else None.

Definition unit_of (ms : list member) (n : string) : option unit_of_measure :=
  match find_member ms n with
  | Some m => documented_unit m
  | None => None
  end.

(** What drives the motor of a definition, read off its members: a force
    along an axis, or a torque about one. *)
Inductive motor_kind : Type :=
| linear_motor (force_unit speed_unit : option unit_of_measure)
| rotational_motor (torque_unit speed_unit : option unit_of_measure).

Definition motor_of (ms : list member) : option motor_kind :=
  if has_member ms c_bool "enableMotor" && has_member ms c_float "motorSpeed" then
    if has_member ms c_float "maxMotorForce" then
      Some (linear_motor (unit_of ms "maxMotorForce") (unit_of ms "motorSpeed"))
    else if has_member ms c_float "maxMotorTorque" then
      Some (rotational_motor (unit_of ms "maxMotorTorque") (unit_of ms "motorSpeed"))
    else None
  else None.

Local Close Scope string_scope.

(* ===================================================================== *)
(** * The box2d API as samples/car.cpp uses it                            *)
(* ===================================================================== *)

(** Modelled from the spec: the value types below are declared in
    box2d/types.h and box2d/geometry.h, which are not among the sources;
    the specification treats bodies, shapes and hulls as external
    collaborators.  Each structure has the members the sample reads or
    writes, in the order its initialisers give them. *)
Inductive b2BodyType : Type := b2_staticBody | b2_kinematicBody | b2_dynamicBody.

Module b2BodyDef.
Record t : Type := mk { type : b2BodyType; position : b2Vec2 }.
Definition with_type (v : b2BodyType) (d : t) : t := mk v (position d).
Definition with_position (v : b2Vec2) (d : t) : t := mk (type d) v.
End b2BodyDef.
Abbreviation b2BodyDef := b2BodyDef.t.

Module b2ShapeDef.
Record t : Type := mk { friction : float; density : float }.
Definition with_friction (v : float) (d : t) : t := mk v (density d).
Definition with_density (v : float) (d : t) : t := mk (friction d) v.
End b2ShapeDef.
Abbreviation b2ShapeDef := b2ShapeDef.t.

Record b2Circle : Type := mkCircle { center : b2Vec2; radius : float }.
Record b2Hull : Type := mkHull { points : list b2Vec2; count : Z }.
Record b2Polygon : Type := mkPolygon { vertices : list b2Vec2; poly_radius : float }.

(** The functions of the library that car.cpp calls, with the arguments it
    passes and the type of what comes back.  Their bodies are not in the
    sample: a call is an interaction with the world the car lives in.
    Structures passed by address ([&bodyDef]) are read at the call, so they
    are passed by value here. *)
Inductive call : Type -> Type :=
| b2ComputeHull (points : list b2Vec2) (count : Z) : call b2Hull
| b2MakePolygon (hull : b2Hull) (radius : float) : call b2Polygon
| b2DefaultShapeDef : call b2ShapeDef
| b2DefaultBodyDef : call b2BodyDef
| b2Add (a b : b2Vec2) : call b2Vec2
| b2CreateBody (worldId : b2WorldId) (def : b2BodyDef) : call b2BodyId
| b2CreatePolygonShape (bodyId : b2BodyId) (def : b2ShapeDef) (polygon : b2Polygon) : call b2ShapeId
| b2CreateCircleShape (bodyId : b2BodyId) (def : b2ShapeDef) (circle : b2Circle) : call b2ShapeId
| b2Body_GetPosition (bodyId : b2BodyId) : call b2Vec2
| b2Body_GetLocalVector (bodyId : b2BodyId) (worldVector : b2Vec2) : call b2Vec2
| b2Body_GetLocalPoint (bodyId : b2BodyId) (worldPoint : b2Vec2) : call b2Vec2
| b2DefaultWheelJointDef : call b2WheelJointDef
| b2CreateWheelJoint (worldId : b2WorldId) (def : b2WheelJointDef) : call b2JointId
| b2DestroyJoint (jointId : b2JointId) : call unit
| b2DestroyBody (bodyId : b2BodyId) : call unit
| b2WheelJoint_SetMotorSpeed (jointId : b2JointId) (motorSpeed : float) : call unit
| b2WheelJoint_SetMaxMotorTorque (jointId : b2JointId) (torque : float) : call unit
| b2WheelJoint_SetSpringHertz (jointId : b2JointId) (hertz : float) : call unit
| b2WheelJoint_SetSpringDampingRatio (jointId : b2JointId) (dampingRatio : float) : call unit
| b2Joint_WakeBodies (jointId : b2JointId) : call unit.

(** A method body: it returns, calls the library and goes on with the
    answer, or stops at an [assert] whose condition is false. *)
Inductive prog (A : Type) : Type :=
| Ret (a : A)
| Do {X : Type} (c : call X) (k : X -> prog A)
| AssertFailed (expr : string).
Arguments Ret {A} a.
Arguments Do {A X} c k.
Arguments AssertFailed {A} expr.

Fixpoint prog_bind {A B : Type} (f : A -> prog B) (p : prog A) : prog B :=
  match p with
  | Ret a => f a
  | Do c k => Do c (fun r => prog_bind f (k r))
  | AssertFailed e => AssertFailed e
  end.

#[export] Instance prog_mret : MRet prog := @Ret.
#[export] Instance prog_mbind : MBind prog := @prog_bind.

(** [f(args)] as a statement or an initialiser. *)
Definition invoke {X : Type} (c : call X) : prog X := Do c Ret.

(** [assert(cond)], with the text of the condition. *)
Definition assert (cond : bool) (expr : string) : prog unit :=
  if cond then Ret tt else AssertFailed expr.

(** [for (int i = lo; i < lo + n; ++i) body] over a state [S]. *)
Fixpoint for_loop {S : Type} (lo n : nat) (body : nat -> S -> S) (s : S) : S :=
  match n with
  | O => s
  | Datatypes.S n' => for_loop (Datatypes.S lo) n' body (body lo s)
  end.

(** ** Running a method against a world *)

(** One finished call: what was called and what it answered. *)
Inductive event : Type :=
| Called {X : Type} (c : call X) (r : X).

Inductive status (A : Type) : Type :=
| Returned (a : A)
| Aborted (expr : string).
Arguments Returned {A} a.
Arguments Aborted {A} expr.

Record outcome (W A : Type) : Type := mkOutcome {
  result : status A;
  world : W;
  trace : list event }.
Arguments mkOutcome {W A} result world trace.
Arguments result {W A} o.
Arguments world {W A} o.
Arguments trace {W A} o.

(** A world answers every call and moves to its next state. *)
Definition handler (W : Type) : Type := forall X : Type, call X -> W -> X * W.

(** [logged e o]: the outcome [o], after the call [e] was made first. *)
Definition logged {W A : Type} (e : event) (o : outcome W A) : outcome W A :=
  mkOutcome (result o) (world o) (e :: trace o).

Fixpoint run {W A : Type} (h : handler W) (p : prog A) (w : W) : outcome W A :=
  match p with
  | Ret a => mkOutcome (Returned a) w []
  | Do c k =>
      let r := h _ c w in
      logged (Called c (fst r)) (run h (k (fst r)) (snd r))
  | AssertFailed e => mkOutcome (Aborted e) w []
  end.

(** Reading a trace: the wheel joints created, the joints whose motor
    parameters were written, the joints whose bodies were woken. *)
Definition created_wheel_joint (e : event) : option (b2WorldId * b2WheelJointDef * b2JointId) :=
  match e with
  | Called c r =>
      match c in call X return X -> option (b2WorldId * b2WheelJointDef * b2JointId) with
      | b2CreateWheelJoint w d => fun id => Some (w, d, id)
      | _ => fun _ => None
      end r
  end.

Definition motor_changed (e : event) : option b2JointId :=
  match e with
  | Called (b2WheelJoint_SetMotorSpeed j _) _ => Some j
  | Called (b2WheelJoint_SetMaxMotorTorque j _) _ => Some j
  | _ => None
  end.

Definition woken (e : event) : option b2JointId :=
  match e with
  | Called (b2Joint_WakeBodies j) _ => Some j
  | _ => None
  end.

Definition created_wheel_joints (tr : list event) : list (b2WorldId * b2WheelJointDef * b2JointId) :=
  omap created_wheel_joint tr.

(** [wakes_after j tr]: in [tr], every write to a motor parameter of [j] is
    followed by a [b2Joint_WakeBodies(j)]. *)
Fixpoint wakes_after (j : b2JointId) (tr : list event) : bool :=
  match tr with
  | [] => true
  | e :: rest =>
      match motor_changed e with
      | Some j' =>
          if b2JointId.eqb j' j
          then existsb (fun e' => match woken e' with
                                  | Some j'' => b2JointId.eqb j'' j
                                  | None => false
                                  end) rest
               && wakes_after j rest
          else wakes_after j rest
      | None => wakes_after j rest
      end
  end.

(* ===================================================================== *)
(** * samples/car.cpp                                                     *)
(* ===================================================================== *)

Module Car.

(** The data members of [class Car], as the constructor lists them. *)
Record t : Type := mk {
  m_chassisId : b2BodyId;
  m_rearWheelId : b2BodyId;
  m_frontWheelId : b2BodyId;
  m_rearAxleId : b2JointId;
  m_frontAxleId : b2JointId;
  m_isSpawned : bool }.

Definition with_chassisId (v : b2BodyId) (c : t) : t :=
  mk v (m_rearWheelId c) (m_frontWheelId c) (m_rearAxleId c) (m_frontAxleId c) (m_isSpawned c).
Definition with_rearWheelId (v : b2BodyId) (c : t) : t :=
  mk (m_chassisId c) v (m_frontWheelId c) (m_rearAxleId c) (m_frontAxleId c) (m_isSpawned c).
Definition with_frontWheelId (v : b2BodyId) (c : t) : t :=
  mk (m_chassisId c) (m_rearWheelId c) v (m_rearAxleId c) (m_frontAxleId c) (m_isSpawned c).
Definition with_rearAxleId (v : b2JointId) (c : t) : t :=
  mk (m_chassisId c) (m_rearWheelId c) (m_frontWheelId c) v (m_frontAxleId c) (m_isSpawned c).
Definition with_frontAxleId (v : b2JointId) (c : t) : t :=
  mk (m_chassisId c) (m_rearWheelId c) (m_frontWheelId c) (m_rearAxleId c) v (m_isSpawned c).
Definition with_isSpawned (v : bool) (c : t) : t :=
  mk (m_chassisId c) (m_rearWheelId c) (m_frontWheelId c) (m_rearAxleId c) (m_frontAxleId c) v.

(** [Car::Car()] *)
Definition Car : t :=
  {| m_chassisId := b2BodyId.zero_init;
     m_rearWheelId := b2BodyId.zero_init;
     m_frontWheelId := b2BodyId.zero_init;
     m_rearAxleId := b2JointId.zero_init;
     m_frontAxleId := b2JointId.zero_init;
     m_isSpawned := false |}.

(** The chassis outline before scaling. *)
Definition chassis_vertices : list b2Vec2 :=
  [ mkVec2 (F32.neg (F32.dec 15 1)) (F32.neg (F32.dec 5 1));
    mkVec2 (F32.dec 15 1) (F32.neg (F32.dec 5 1));
    mkVec2 (F32.dec 15 1) (F32.dec 0 1);
    mkVec2 (F32.dec 0 1) (F32.dec 9 1);
    mkVec2 (F32.neg (F32.dec 115 2)) (F32.dec 9 1);
    mkVec2 (F32.neg (F32.dec 15 1)) (F32.dec 2 1) ].

(** The body of the scaling loop: [vertices[i].x *= scale;
    vertices[i].y *= scale;] *)
Definition scale_vertex (scale : float) (i : nat) (vs : list b2Vec2) : list b2Vec2 :=
  let vs := alter (fun v => mkVec2 (F32.mul (x v) scale) (y v)) i vs in
  alter (fun v => mkVec2 (x v) (F32.mul (y v) scale)) i vs.

(** [void Car::Spawn(b2WorldId worldId, b2Vec2 position, float scale,
    float hertz, float dampingRatio, float torque, void* userData)] *)
Definition Spawn (this : t) (worldId : b2WorldId) (position : b2Vec2)
    (scale hertz dampingRatio torque : float) (userData : void_ptr) : prog t :=
  assert (Bool.eqb (m_isSpawned this) false) "m_isSpawned == false" ;;
  assert (b2BodyId.B2_IS_NULL (m_chassisId this)) "B2_IS_NULL(m_chassisId)" ;;
  assert (b2BodyId.B2_IS_NULL (m_frontWheelId this)) "B2_IS_NULL(m_frontWheelId)" ;;
  assert (b2BodyId.B2_IS_NULL (m_rearWheelId this)) "B2_IS_NULL(m_rearWheelId)" ;;
  let vertices := chassis_vertices in
  let vertices := for_loop 0 6 (scale_vertex scale) vertices in
  hull ← invoke (b2ComputeHull vertices 6);
  chassis ← invoke (b2MakePolygon hull (F32.dec 0 1));
  shapeDef ← invoke b2DefaultShapeDef;
  let shapeDef := b2ShapeDef.with_density (F32.div (F32.dec 10 1) scale) shapeDef in
  let shapeDef := b2ShapeDef.with_friction (F32.dec 2 1) shapeDef in
  let circle := mkCircle (mkVec2 (F32.dec 0 1) (F32.dec 0 1)) (F32.mul (F32.dec 4 1) scale) in
  bodyDef ← invoke b2DefaultBodyDef;
  let bodyDef := b2BodyDef.with_type b2_dynamicBody bodyDef in
  p ← invoke (b2Add (mkVec2 (F32.dec 0 1) (F32.mul (F32.dec 10 1) scale)) position);
  let bodyDef := b2BodyDef.with_position p bodyDef in
  id ← invoke (b2CreateBody worldId bodyDef);
  let this := with_chassisId id this in
  invoke (b2CreatePolygonShape (m_chassisId this) shapeDef chassis) ;;
  let shapeDef := b2ShapeDef.with_density (F32.div (F32.dec 20 1) scale) shapeDef in
  let shapeDef := b2ShapeDef.with_friction (F32.dec 15 1) shapeDef in
  p ← invoke (b2Add (mkVec2 (F32.mul (F32.neg (F32.dec 10 1)) scale)
                             (F32.mul (F32.dec 35 2) scale)) position);
  let bodyDef := b2BodyDef.with_position p bodyDef in
  id ← invoke (b2CreateBody worldId bodyDef);
  let this := with_rearWheelId id this in
  invoke (b2CreateCircleShape (m_rearWheelId this) shapeDef circle) ;;
  p ← invoke (b2Add (mkVec2 (F32.mul (F32.dec 10 1) scale)
                             (F32.mul (F32.dec 4 1) scale)) position);
  let bodyDef := b2BodyDef.with_position p bodyDef in
  id ← invoke (b2CreateBody worldId bodyDef);
  let this := with_frontWheelId id this in
  invoke (b2CreateCircleShape (m_frontWheelId this) shapeDef circle) ;;
  let axis := mkVec2 (F32.dec 0 1) (F32.dec 10 1) in
  pivot ← invoke (b2Body_GetPosition (m_rearWheelId this));
  jointDef ← invoke b2DefaultWheelJointDef;
  (* lines 78-91: the rear axle *)
  let jointDef := b2WheelJointDef.with_bodyIdA (m_chassisId this) jointDef in
  let jointDef := b2WheelJointDef.with_bodyIdB (m_rearWheelId this) jointDef in
  v ← invoke (b2Body_GetLocalVector (b2WheelJointDef.bodyIdA jointDef) axis);
  let jointDef := b2WheelJointDef.with_localAxisA v jointDef in
  v ← invoke (b2Body_GetLocalPoint (b2WheelJointDef.bodyIdA jointDef) pivot);
  let jointDef := b2WheelJointDef.with_localAnchorA v jointDef in
  v ← invoke (b2Body_GetLocalPoint (b2WheelJointDef.bodyIdB jointDef) pivot);
  let jointDef := b2WheelJointDef.with_localAnchorB v jointDef in
  let jointDef := b2WheelJointDef.with_motorSpeed (F32.dec 0 1) jointDef in
  let jointDef := b2WheelJointDef.with_maxMotorTorque torque jointDef in
  let jointDef := b2WheelJointDef.with_enableMotor true jointDef in
  let jointDef := b2WheelJointDef.with_hertz hertz jointDef in
  let jointDef := b2WheelJointDef.with_dampingRatio dampingRatio jointDef in
  let jointDef := b2WheelJointDef.with_lowerTranslation
                    (F32.mul (F32.neg (F32.dec 25 2)) scale) jointDef in
  let jointDef := b2WheelJointDef.with_upperTranslation
                    (F32.mul (F32.dec 25 2) scale) jointDef in
  let jointDef := b2WheelJointDef.with_enableLimit true jointDef in
  jid ← invoke (b2CreateWheelJoint worldId jointDef);
  let this := with_rearAxleId jid this in
  (* lines 93-107: the front axle, on the same jointDef *)
  pivot ← invoke (b2Body_GetPosition (m_frontWheelId this));
  let jointDef := b2WheelJointDef.with_bodyIdA (m_chassisId this) jointDef in
  let jointDef := b2WheelJointDef.with_bodyIdB (m_frontWheelId this) jointDef in
  v ← invoke (b2Body_GetLocalVector (b2WheelJointDef.bodyIdA jointDef) axis);
  let jointDef := b2WheelJointDef.with_localAxisA v jointDef in
  v ← invoke (b2Body_GetLocalPoint (b2WheelJointDef.bodyIdA jointDef) pivot);
  let jointDef := b2WheelJointDef.with_localAnchorA v jointDef in
  v ← invoke (b2Body_GetLocalPoint (b2WheelJointDef.bodyIdB jointDef) pivot);
  let jointDef := b2WheelJointDef.with_localAnchorB v jointDef in
  let jointDef := b2WheelJointDef.with_motorSpeed (F32.dec 0 1) jointDef in
  let jointDef := b2WheelJointDef.with_maxMotorTorque torque jointDef in
  let jointDef := b2WheelJointDef.with_enableMotor true jointDef in
  let jointDef := b2WheelJointDef.with_hertz hertz jointDef in
  let jointDef := b2WheelJointDef.with_dampingRatio dampingRatio jointDef in
  let jointDef := b2WheelJointDef.with_lowerTranslation
                    (F32.mul (F32.neg (F32.dec 25 2)) scale) jointDef in
  let jointDef := b2WheelJointDef.with_upperTranslation
                    (F32.mul (F32.dec 25 2) scale) jointDef in
  let jointDef := b2WheelJointDef.with_enableLimit true jointDef in
  jid ← invoke (b2CreateWheelJoint worldId jointDef);
  let this := with_frontAxleId jid this in
  mret this.

(** [void Car::Despawn()] *)
Definition Despawn (this : t) : prog t :=
  assert (Bool.eqb (m_isSpawned this) true) "m_isSpawned == true" ;;
  invoke (b2DestroyJoint (m_rearAxleId this)) ;;
  invoke (b2DestroyJoint (m_frontAxleId this)) ;;
  invoke (b2DestroyBody (m_rearWheelId this)) ;;
  invoke (b2DestroyBody (m_frontWheelId this)) ;;
  invoke (b2DestroyBody (m_chassisId this)) ;;
  let this := with_isSpawned false this in
  mret this.

(** [void Car::SetSpeed(float speed)] *)
Definition SetSpeed (this : t) (speed : float) : prog t :=
  invoke (b2WheelJoint_SetMotorSpeed (m_rearAxleId this) speed) ;;
  invoke (b2WheelJoint_SetMotorSpeed (m_frontAxleId this) speed) ;;
  invoke (b2Joint_WakeBodies (m_rearAxleId this)) ;;
  mret this.

(** [void Car::SetTorque(float torque)] *)
Definition SetTorque (this : t) (torque : float) : prog t :=
  invoke (b2WheelJoint_SetMaxMotorTorque (m_rearAxleId this) torque) ;;
  invoke (b2WheelJoint_SetMaxMotorTorque (m_frontAxleId this) torque) ;;
  mret this.

(** [void Car::SetHertz(float hertz)] *)
Definition SetHertz (this : t) (hertz : float) : prog t :=
  invoke (b2WheelJoint_SetSpringHertz (m_rearAxleId this) hertz) ;;
  invoke (b2WheelJoint_SetSpringHertz (m_frontAxleId this) hertz) ;;
  mret this.

(** [void Car::SetDampingRadio(float dampingRatio)] *)
Definition SetDampingRadio (this : t) (dampingRatio : float) : prog t :=
  invoke (b2WheelJoint_SetSpringDampingRatio (m_rearAxleId this) dampingRatio) ;;
  invoke (b2WheelJoint_SetSpringDampingRatio (m_frontAxleId this) dampingRatio) ;;
  mret this.

(** The conditions [Spawn] asserts on entry, as one test. *)
Definition Spawn_asserts (this : t) : bool :=
  Bool.eqb (m_isSpawned this) false
  && b2BodyId.B2_IS_NULL (m_chassisId this)
  && b2BodyId.B2_IS_NULL (m_frontWheelId this)
  && b2BodyId.B2_IS_NULL (m_rearWheelId this).

(** The methods other than [Spawn], to speak of a car on which [Spawn] has
    not been called yet. *)
Inductive method : Type :=
| CallDespawn
| CallSetSpeed (speed : float)
| CallSetTorque (torque : float)
| CallSetHertz (hertz : float)
| CallSetDampingRadio (dampingRatio : float).

Definition body_of (m : method) (this : t) : prog t :=
  match m with
  | CallDespawn => Despawn this
  | CallSetSpeed v => SetSpeed this v
  | CallSetTorque v => SetTorque this v
  | CallSetHertz v => SetHertz this v
  | CallSetDampingRadio v => SetDampingRadio this v
  end.

End Car.

(* ===================================================================== *)
(** * The joint subsystem behind the API                                  *)
(* ===================================================================== *)

(** The creation functions, the setters and the solver are implemented in
    the library sources, of which only the header above and the sample are
    present.  What follows is written from the specification, section by
    section, and every definition says which sentence it renders. *)

(** ** Frequencies and limits of a definition (joint_types.h) *)

(** The frequencies a definition carries. *)
Definition hertz_of (d : b2JointDef) : list float :=
  match d with
  | DistanceDef d => [b2DistanceJointDef.hertz d]
  | MotorDef _ => []
  | MouseDef d => [b2MouseJointDef.hertz d]
  | PrismaticDef d => [b2PrismaticJointDef.hertz d]
  | RevoluteDef d => [b2RevoluteJointDef.hertz d]
  | WeldDef d => [b2WeldJointDef.linearHertz d; b2WeldJointDef.angularHertz d]
  | WheelDef d => [b2WheelJointDef.hertz d]
  end.

Definition limits_of (d : b2JointDef) : option (float * float) :=
  match d with
  | DistanceDef d => Some (b2DistanceJointDef.minLength d, b2DistanceJointDef.maxLength d)
  | PrismaticDef d => Some (b2PrismaticJointDef.lowerTranslation d, b2PrismaticJointDef.upperTranslation d)
  | RevoluteDef d => Some (b2RevoluteJointDef.lowerAngle d, b2RevoluteJointDef.upperAngle d)
  | WheelDef d => Some (b2WheelJointDef.lowerTranslation d, b2WheelJointDef.upperTranslation d)
  | MotorDef _ | MouseDef _ | WeldDef _ => None
  end.

Definition with_limits (lo hi : float) (d : b2JointDef) : b2JointDef :=
  match d with
  | DistanceDef d => DistanceDef (b2DistanceJointDef.with_limits lo hi d)
  | PrismaticDef d => PrismaticDef (b2PrismaticJointDef.with_limits lo hi d)
  | RevoluteDef d => RevoluteDef (b2RevoluteJointDef.with_limits lo hi d)
  | WheelDef d => WheelDef (b2WheelJointDef.with_limits lo hi d)
  | MotorDef _ | MouseDef _ | WeldDef _ => d
  end.

(** [inverted d]: the upper bound is below the lower one. *)
Definition inverted (d : b2JointDef) : bool :=
  match limits_of d with
  | Some (lo, hi) => F32.ltb hi lo
  | None => false
  end.

(** ** What creation stores of a definition (specification 3, 4.2, 4.3) *)

(** Modelled from the spec: <<definitions with maxLength < minLength or
    upperTranslation/upperAngle < lower... have bounds swapped at creation
    time rather than rejected>> (4.2); the creation functions themselves are
    not among the sources. *)
Definition swap_inverted (d : b2JointDef) : b2JointDef :=
  match limits_of d with
  | Some (lo, hi) => if F32.ltb hi lo then with_limits hi lo d else d
  | None => d
  end.

(** Member assignment [d.f = v], for the members that creation and the
    setters assign. *)
Definition distance_with_length (v : float) (d : b2DistanceJointDef) : b2DistanceJointDef :=
  b2DistanceJointDef.mk
    (b2DistanceJointDef.bodyIdA d) (b2DistanceJointDef.bodyIdB d)
    (b2DistanceJointDef.localAnchorA d) (b2DistanceJointDef.localAnchorB d) v
    (b2DistanceJointDef.enableSpring d) (b2DistanceJointDef.hertz d)
    (b2DistanceJointDef.dampingRatio d) (b2DistanceJointDef.enableLimit d)
    (b2DistanceJointDef.minLength d) (b2DistanceJointDef.maxLength d)
    (b2DistanceJointDef.enableMotor d) (b2DistanceJointDef.maxMotorForce d)
    (b2DistanceJointDef.motorSpeed d) (b2DistanceJointDef.collideConnected d)
    (b2DistanceJointDef.userData d).
Definition distance_with_hertz (v : float) (d : b2DistanceJointDef) : b2DistanceJointDef :=
  b2DistanceJointDef.mk
    (b2DistanceJointDef.bodyIdA d) (b2DistanceJointDef.bodyIdB d)
    (b2DistanceJointDef.localAnchorA d) (b2DistanceJointDef.localAnchorB d)
    (b2DistanceJointDef.length d) (b2DistanceJointDef.enableSpring d) v
    (b2DistanceJointDef.dampingRatio d) (b2DistanceJointDef.enableLimit d)
    (b2DistanceJointDef.minLength d) (b2DistanceJointDef.maxLength d)
    (b2DistanceJointDef.enableMotor d) (b2DistanceJointDef.maxMotorForce d)
    (b2DistanceJointDef.motorSpeed d) (b2DistanceJointDef.collideConnected d)
    (b2DistanceJointDef.userData d).
Definition distance_with_dampingRatio (v : float) (d : b2DistanceJointDef) : b2DistanceJointDef :=
  b2DistanceJointDef.mk
    (b2DistanceJointDef.bodyIdA d) (b2DistanceJointDef.bodyIdB d)
    (b2DistanceJointDef.localAnchorA d) (b2DistanceJointDef.localAnchorB d)
    (b2DistanceJointDef.length d) (b2DistanceJointDef.enableSpring d)
    (b2DistanceJointDef.hertz d) v (b2DistanceJointDef.enableLimit d)
    (b2DistanceJointDef.minLength d) (b2DistanceJointDef.maxLength d)
    (b2DistanceJointDef.enableMotor d) (b2DistanceJointDef.maxMotorForce d)
    (b2DistanceJointDef.motorSpeed d) (b2DistanceJointDef.collideConnected d)
    (b2DistanceJointDef.userData d).
Definition distance_with_maxMotorForce (v : float) (d : b2DistanceJointDef) : b2DistanceJointDef :=
  b2DistanceJointDef.mk
    (b2DistanceJointDef.bodyIdA d) (b2DistanceJointDef.bodyIdB d)
    (b2DistanceJointDef.localAnchorA d) (b2DistanceJointDef.localAnchorB d)
    (b2DistanceJointDef.length d) (b2DistanceJointDef.enableSpring d)
    (b2DistanceJointDef.hertz d) (b2DistanceJointDef.dampingRatio d)
    (b2DistanceJointDef.enableLimit d) (b2DistanceJointDef.minLength d)
    (b2DistanceJointDef.maxLength d) (b2DistanceJointDef.enableMotor d) v
    (b2DistanceJointDef.motorSpeed d) (b2DistanceJointDef.collideConnected d)
    (b2DistanceJointDef.userData d).
Definition distance_with_motorSpeed (v : float) (d : b2DistanceJointDef) : b2DistanceJointDef :=
  b2DistanceJointDef.mk
    (b2DistanceJointDef.bodyIdA d) (b2DistanceJointDef.bodyIdB d)
    (b2DistanceJointDef.localAnchorA d) (b2DistanceJointDef.localAnchorB d)
    (b2DistanceJointDef.length d) (b2DistanceJointDef.enableSpring d)
    (b2DistanceJointDef.hertz d) (b2DistanceJointDef.dampingRatio d)
    (b2DistanceJointDef.enableLimit d) (b2DistanceJointDef.minLength d)
    (b2DistanceJointDef.maxLength d) (b2DistanceJointDef.enableMotor d)
    (b2DistanceJointDef.maxMotorForce d) v (b2DistanceJointDef.collideConnected d)
    (b2DistanceJointDef.userData d).
Definition motor_with_maxForce (v : float) (d : b2MotorJointDef) : b2MotorJointDef :=
  b2MotorJointDef.mk
    (b2MotorJointDef.bodyIdA d) (b2MotorJointDef.bodyIdB d)
    (b2MotorJointDef.linearOffset d) (b2MotorJointDef.angularOffset d) v
    (b2MotorJointDef.maxTorque d) (b2MotorJointDef.correctionFactor d)
    (b2MotorJointDef.collideConnected d) (b2MotorJointDef.userData d).
Definition motor_with_maxTorque (v : float) (d : b2MotorJointDef) : b2MotorJointDef :=
  b2MotorJointDef.mk
    (b2MotorJointDef.bodyIdA d) (b2MotorJointDef.bodyIdB d)
    (b2MotorJointDef.linearOffset d) (b2MotorJointDef.angularOffset d)
    (b2MotorJointDef.maxForce d) v (b2MotorJointDef.correctionFactor d)
    (b2MotorJointDef.collideConnected d) (b2MotorJointDef.userData d).
Definition mouse_with_hertz (v : float) (d : b2MouseJointDef) : b2MouseJointDef :=
  b2MouseJointDef.mk
    (b2MouseJointDef.bodyIdA d) (b2MouseJointDef.bodyIdB d) (b2MouseJointDef.target d)
    v (b2MouseJointDef.dampingRatio d) (b2MouseJointDef.maxForce d)
    (b2MouseJointDef.collideConnected d) (b2MouseJointDef.userData d).
Definition mouse_with_dampingRatio (v : float) (d : b2MouseJointDef) : b2MouseJointDef :=
  b2MouseJointDef.mk
    (b2MouseJointDef.bodyIdA d) (b2MouseJointDef.bodyIdB d) (b2MouseJointDef.target d)
    (b2MouseJointDef.hertz d) v (b2MouseJointDef.maxForce d)
    (b2MouseJointDef.collideConnected d) (b2MouseJointDef.userData d).
Definition mouse_with_maxForce (v : float) (d : b2MouseJointDef) : b2MouseJointDef :=
  b2MouseJointDef.mk
    (b2MouseJointDef.bodyIdA d) (b2MouseJointDef.bodyIdB d) (b2MouseJointDef.target d)
    (b2MouseJointDef.hertz d) (b2MouseJointDef.dampingRatio d) v
    (b2MouseJointDef.collideConnected d) (b2MouseJointDef.userData d).
Definition prismatic_with_hertz (v : float) (d : b2PrismaticJointDef) : b2PrismaticJointDef :=
  b2PrismaticJointDef.mk
    (b2PrismaticJointDef.bodyIdA d) (b2PrismaticJointDef.bodyIdB d)
    (b2PrismaticJointDef.localAnchorA d) (b2PrismaticJointDef.localAnchorB d)
    (b2PrismaticJointDef.localAxisA d) (b2PrismaticJointDef.referenceAngle d)
    (b2PrismaticJointDef.enableSpring d) v (b2PrismaticJointDef.dampingRatio d)
    (b2PrismaticJointDef.enableLimit d) (b2PrismaticJointDef.lowerTranslation d)
    (b2PrismaticJointDef.upperTranslation d) (b2PrismaticJointDef.enableMotor d)
    (b2PrismaticJointDef.maxMotorForce d) (b2PrismaticJointDef.motorSpeed d)
    (b2PrismaticJointDef.collideConnected d) (b2PrismaticJointDef.userData d).
Definition prismatic_with_dampingRatio (v : float) (d : b2PrismaticJointDef) : b2PrismaticJointDef :=
  b2PrismaticJointDef.mk
    (b2PrismaticJointDef.bodyIdA d) (b2PrismaticJointDef.bodyIdB d)
    (b2PrismaticJointDef.localAnchorA d) (b2PrismaticJointDef.localAnchorB d)
    (b2PrismaticJointDef.localAxisA d) (b2PrismaticJointDef.referenceAngle d)
    (b2PrismaticJointDef.enableSpring d) (b2PrismaticJointDef.hertz d) v
    (b2PrismaticJointDef.enableLimit d) (b2PrismaticJointDef.lowerTranslation d)
    (b2PrismaticJointDef.upperTranslation d) (b2PrismaticJointDef.enableMotor d)
    (b2PrismaticJointDef.maxMotorForce d) (b2PrismaticJointDef.motorSpeed d)
    (b2PrismaticJointDef.collideConnected d) (b2PrismaticJointDef.userData d).
Definition prismatic_with_maxMotorForce (v : float) (d : b2PrismaticJointDef) : b2PrismaticJointDef :=
  b2PrismaticJointDef.mk
    (b2PrismaticJointDef.bodyIdA d) (b2PrismaticJointDef.bodyIdB d)
    (b2PrismaticJointDef.localAnchorA d) (b2PrismaticJointDef.localAnchorB d)
    (b2PrismaticJointDef.localAxisA d) (b2PrismaticJointDef.referenceAngle d)
    (b2PrismaticJointDef.enableSpring d) (b2PrismaticJointDef.hertz d)
    (b2PrismaticJointDef.dampingRatio d) (b2PrismaticJointDef.enableLimit d)
    (b2PrismaticJointDef.lowerTranslation d) (b2PrismaticJointDef.upperTranslation d)
    (b2PrismaticJointDef.enableMotor d) v (b2PrismaticJointDef.motorSpeed d)
    (b2PrismaticJointDef.collideConnected d) (b2PrismaticJointDef.userData d).
Definition prismatic_with_motorSpeed (v : float) (d : b2PrismaticJointDef) : b2PrismaticJointDef :=
  b2PrismaticJointDef.mk
    (b2PrismaticJointDef.bodyIdA d) (b2PrismaticJointDef.bodyIdB d)
    (b2PrismaticJointDef.localAnchorA d) (b2PrismaticJointDef.localAnchorB d)
    (b2PrismaticJointDef.localAxisA d) (b2PrismaticJointDef.referenceAngle d)
    (b2PrismaticJointDef.enableSpring d) (b2PrismaticJointDef.hertz d)
    (b2PrismaticJointDef.dampingRatio d) (b2PrismaticJointDef.enableLimit d)
    (b2PrismaticJointDef.lowerTranslation d) (b2PrismaticJointDef.upperTranslation d)
    (b2PrismaticJointDef.enableMotor d) (b2PrismaticJointDef.maxMotorForce d) v
    (b2PrismaticJointDef.collideConnected d) (b2PrismaticJointDef.userData d).
Definition revolute_with_hertz (v : float) (d : b2RevoluteJointDef) : b2RevoluteJointDef :=
  b2RevoluteJointDef.mk
    (b2RevoluteJointDef.bodyIdA d) (b2RevoluteJointDef.bodyIdB d)
    (b2RevoluteJointDef.localAnchorA d) (b2RevoluteJointDef.localAnchorB d)
    (b2RevoluteJointDef.referenceAngle d) (b2RevoluteJointDef.enableSpring d) v
    (b2RevoluteJointDef.dampingRatio d) (b2RevoluteJointDef.enableLimit d)
    (b2RevoluteJointDef.lowerAngle d) (b2RevoluteJointDef.upperAngle d)
    (b2RevoluteJointDef.enableMotor d) (b2RevoluteJointDef.maxMotorTorque d)
    (b2RevoluteJointDef.motorSpeed d) (b2RevoluteJointDef.drawSize d)
    (b2RevoluteJointDef.collideConnected d) (b2RevoluteJointDef.userData d).
Definition revolute_with_dampingRatio (v : float) (d : b2RevoluteJointDef) : b2RevoluteJointDef :=
  b2RevoluteJointDef.mk
    (b2RevoluteJointDef.bodyIdA d) (b2RevoluteJointDef.bodyIdB d)
    (b2RevoluteJointDef.localAnchorA d) (b2RevoluteJointDef.localAnchorB d)
    (b2RevoluteJointDef.referenceAngle d) (b2RevoluteJointDef.enableSpring d)
    (b2RevoluteJointDef.hertz d) v (b2RevoluteJointDef.enableLimit d)
    (b2RevoluteJointDef.lowerAngle d) (b2RevoluteJointDef.upperAngle d)
    (b2RevoluteJointDef.enableMotor d) (b2RevoluteJointDef.maxMotorTorque d)
    (b2RevoluteJointDef.motorSpeed d) (b2RevoluteJointDef.drawSize d)
    (b2RevoluteJointDef.collideConnected d) (b2RevoluteJointDef.userData d).
Definition revolute_with_maxMotorTorque (v : float) (d : b2RevoluteJointDef) : b2RevoluteJointDef :=
  b2RevoluteJointDef.mk
    (b2RevoluteJointDef.bodyIdA d) (b2RevoluteJointDef.bodyIdB d)
    (b2RevoluteJointDef.localAnchorA d) (b2RevoluteJointDef.localAnchorB d)
    (b2RevoluteJointDef.referenceAngle d) (b2RevoluteJointDef.enableSpring d)
    (b2RevoluteJointDef.hertz d) (b2RevoluteJointDef.dampingRatio d)
    (b2RevoluteJointDef.enableLimit d) (b2RevoluteJointDef.lowerAngle d)
    (b2RevoluteJointDef.upperAngle d) (b2RevoluteJointDef.enableMotor d) v
    (b2RevoluteJointDef.motorSpeed d) (b2RevoluteJointDef.drawSize d)
    (b2RevoluteJointDef.collideConnected d) (b2RevoluteJointDef.userData d).
Definition revolute_with_motorSpeed (v : float) (d : b2RevoluteJointDef) : b2RevoluteJointDef :=
  b2RevoluteJointDef.mk
    (b2RevoluteJointDef.bodyIdA d) (b2RevoluteJointDef.bodyIdB d)
    (b2RevoluteJointDef.localAnchorA d) (b2RevoluteJointDef.localAnchorB d)
    (b2RevoluteJointDef.referenceAngle d) (b2RevoluteJointDef.enableSpring d)
    (b2RevoluteJointDef.hertz d) (b2RevoluteJointDef.dampingRatio d)
    (b2RevoluteJointDef.enableLimit d) (b2RevoluteJointDef.lowerAngle d)
    (b2RevoluteJointDef.upperAngle d) (b2RevoluteJointDef.enableMotor d)
    (b2RevoluteJointDef.maxMotorTorque d) v (b2RevoluteJointDef.drawSize d)
    (b2RevoluteJointDef.collideConnected d) (b2RevoluteJointDef.userData d).
Definition weld_with_linearHertz (v : float) (d : b2WeldJointDef) : b2WeldJointDef :=
  b2WeldJointDef.mk
    (b2WeldJointDef.bodyIdA d) (b2WeldJointDef.bodyIdB d)
    (b2WeldJointDef.localAnchorA d) (b2WeldJointDef.localAnchorB d)
    (b2WeldJointDef.referenceAngle d) v (b2WeldJointDef.angularHertz d)
    (b2WeldJointDef.linearDampingRatio d) (b2WeldJointDef.angularDampingRatio d)
    (b2WeldJointDef.collideConnected d) (b2WeldJointDef.userData d).
Definition weld_with_angularHertz (v : float) (d : b2WeldJointDef) : b2WeldJointDef :=
  b2WeldJointDef.mk
    (b2WeldJointDef.bodyIdA d) (b2WeldJointDef.bodyIdB d)
    (b2WeldJointDef.localAnchorA d) (b2WeldJointDef.localAnchorB d)
    (b2WeldJointDef.referenceAngle d) (b2WeldJointDef.linearHertz d) v
    (b2WeldJointDef.linearDampingRatio d) (b2WeldJointDef.angularDampingRatio d)
    (b2WeldJointDef.collideConnected d) (b2WeldJointDef.userData d).
Definition weld_with_linearDampingRatio (v : float) (d : b2WeldJointDef) : b2WeldJointDef :=
  b2WeldJointDef.mk
    (b2WeldJointDef.bodyIdA d) (b2WeldJointDef.bodyIdB d)
    (b2WeldJointDef.localAnchorA d) (b2WeldJointDef.localAnchorB d)
    (b2WeldJointDef.referenceAngle d) (b2WeldJointDef.linearHertz d)
    (b2WeldJointDef.angularHertz d) v (b2WeldJointDef.angularDampingRatio d)
    (b2WeldJointDef.collideConnected d) (b2WeldJointDef.userData d).
Definition weld_with_angularDampingRatio (v : float) (d : b2WeldJointDef) : b2WeldJointDef :=
  b2WeldJointDef.mk
    (b2WeldJointDef.bodyIdA d) (b2WeldJointDef.bodyIdB d)
    (b2WeldJointDef.localAnchorA d) (b2WeldJointDef.localAnchorB d)
    (b2WeldJointDef.referenceAngle d) (b2WeldJointDef.linearHertz d)
    (b2WeldJointDef.angularHertz d) (b2WeldJointDef.linearDampingRatio d) v
    (b2WeldJointDef.collideConnected d) (b2WeldJointDef.userData d).

(** Modelled from the spec: [Create] <<applies the type's default-construction
    rule for any zero-valued optional field (e.g., unspecified length seeded
    from current anchor separation)>> (4.3).  The rule the specification
    gives is the one for the length of a distance joint; the separation of
    the two anchors comes from the poses of the bodies, which the body
    storage knows. *)
Definition seed_length (separation : float) (d : b2DistanceJointDef) : b2DistanceJointDef :=
  if F32.eqb (b2DistanceJointDef.length d) F32.zero
  then distance_with_length separation d
  else d.

(** Modelled from the spec: <<length/limit bounds are clamped to a strictly
    positive minimum to avoid singular effective masses>> (3), with the
    invariant <<lower <= upper (values are clamped/swapped if violated)>>.
    The header says of [length] and of [minLength] <<Clamped to a stable
    minimum value>> and of [maxLength] <<Must be greater than or equal to
    the minimum length>>; the translations and angles of the other joints
    may be negative (car.cpp asks for [-0.25f * scale]) and are not clamped.
    The minimum itself is a constant of the library, [slop] here. *)
Definition clamp_lengths (slop : float) (d : b2DistanceJointDef) : b2DistanceJointDef :=
  let length := F32.max (b2DistanceJointDef.length d) slop in
  let minLength := F32.max (b2DistanceJointDef.minLength d) slop in
  let maxLength := F32.max (F32.max (b2DistanceJointDef.maxLength d) slop) minLength in
  b2DistanceJointDef.with_limits minLength maxLength (distance_with_length length d).

(** The copy of a definition that a joint keeps: defaults filled in,
    inverted bounds swapped, lengths clamped. *)
Definition stored_def (slop : float) (separation : b2DistanceJointDef -> float)
    (d : b2JointDef) : b2JointDef :=
  match swap_inverted d with
  | DistanceDef dd => DistanceDef (clamp_lengths slop (seed_length (separation dd) dd))
  | d' => d'
  end.

(** ** The joint registry (specification 3, 4.3 and 6) *)

Module JointRegistry.

Inductive error : Type :=
| InvalidJointDefinition
| InvalidHandle.

(** Modelled from the spec: a joint instance <<owns a copy of its definition
    plus solver-private working state>>, here the <<accumulated impulse
    components (linear, angular, limit, motor) carried from the previous
    step for warm starting>>, the limit having a lower and an upper side. *)
Record impulses : Type := mkImpulses {
  linearImpulse : b2Vec2;
  angularImpulse : float;
  lowerImpulse : float;
  upperImpulse : float;
  motorImpulse : float }.

Record b2Joint : Type := mkJoint {
  revision : Z;
  def : b2JointDef;
  accumulated : impulses }.

Definition with_def (d : b2JointDef) (j : b2Joint) : b2Joint :=
  mkJoint (revision j) d (accumulated j).

(** <<accumulated impulses are zeroed when a joint is freshly created>> *)
Definition zero_impulses : impulses :=
  mkImpulses (mkVec2 F32.zero F32.zero) F32.zero F32.zero F32.zero F32.zero.

Definition bodies_of (d : b2JointDef) : b2BodyId * b2BodyId :=
  match d with
  | DistanceDef d => (b2DistanceJointDef.bodyIdA d, b2DistanceJointDef.bodyIdB d)
  | MotorDef d => (b2MotorJointDef.bodyIdA d, b2MotorJointDef.bodyIdB d)
  | MouseDef d => (b2MouseJointDef.bodyIdA d, b2MouseJointDef.bodyIdB d)
  | PrismaticDef d => (b2PrismaticJointDef.bodyIdA d, b2PrismaticJointDef.bodyIdB d)
  | RevoluteDef d => (b2RevoluteJointDef.bodyIdA d, b2RevoluteJointDef.bodyIdB d)
  | WeldDef d => (b2WeldJointDef.bodyIdA d, b2WeldJointDef.bodyIdB d)
  | WheelDef d => (b2WheelJointDef.bodyIdA d, b2WheelJointDef.bodyIdB d)
  end.

(** The members that must not be negative: frequencies, damping ratios and
    the largest motor force or torque. *)
Definition nonnegative_members (d : b2JointDef) : list float :=
  match d with
  | DistanceDef d =>
      [b2DistanceJointDef.hertz d; b2DistanceJointDef.dampingRatio d;
       b2DistanceJointDef.maxMotorForce d]
  | MotorDef d => [b2MotorJointDef.maxForce d; b2MotorJointDef.maxTorque d]
  | MouseDef d =>
      [b2MouseJointDef.hertz d; b2MouseJointDef.dampingRatio d; b2MouseJointDef.maxForce d]
  | PrismaticDef d =>
      [b2PrismaticJointDef.hertz d; b2PrismaticJointDef.dampingRatio d;
       b2PrismaticJointDef.maxMotorForce d]
  | RevoluteDef d =>
      [b2RevoluteJointDef.hertz d; b2RevoluteJointDef.dampingRatio d;
       b2RevoluteJointDef.maxMotorTorque d]
  | WeldDef d =>
      [b2WeldJointDef.linearHertz d; b2WeldJointDef.angularHertz d;
       b2WeldJointDef.linearDampingRatio d; b2WeldJointDef.angularDampingRatio d]
  | WheelDef d =>
      [b2WheelJointDef.hertz d; b2WheelJointDef.dampingRatio d;
       b2WheelJointDef.maxMotorTorque d]
  end.

(** What creation asks of the rest of the engine: whether a body handle is
    live, how far apart the anchors of a distance joint are at the moment,
    and the library's smallest stable length. *)
Record engine : Type := mkEngine {
  body_valid : b2BodyId -> bool;
  anchor_separation : b2DistanceJointDef -> float;
  linearSlop : float }.

(** Modelled from the spec: [Create] <<validates required fields (distinct,
    live bodies; non-negative hertz/dampingRatio/maxForce)>> and <<fails with
    InvalidJointDefinition if both body references are identical or either
    is invalid>>. *)
Definition validate (e : engine) (d : b2JointDef) : bool :=
  let '(a, b) := bodies_of d in
  negb (b2BodyId.eqb a b) && body_valid e a && body_valid e b
  && forallb (F32.leb F32.zero) (nonnegative_members d).

(** The instance stored for a definition: the copy of it described above,
    and no impulse accumulated yet. *)
Definition make_joint (e : engine) (d : b2JointDef) : b2Joint :=
  mkJoint 1 (stored_def (linearSlop e) (anchor_separation e) d) zero_impulses.

(** The first index after the ones in use; index 0 is the null handle. *)
Definition next_index (reg : gmap Z b2Joint) : Z :=
  1 + map_fold (fun k _ acc => Z.max k acc) 0 reg.

(** Modelled from the spec: <<Create<Type>Joint(world, definition) -> handle:
    validates, constructs Joint, registers it>>. *)
Definition Create (e : engine) (d : b2JointDef)
    (reg : gmap Z b2Joint) : error + (b2JointId * gmap Z b2Joint) :=
  if validate e d then
    let i := next_index reg in
    inr (b2JointId.mk i 0 1, <[i := make_joint e d]> reg)
  else inl InvalidJointDefinition.

(** The joint a handle designates, if the handle is live. *)
Definition live (reg : gmap Z b2Joint) (id : b2JointId) : option b2Joint :=
  match reg !! b2JointId.index1 id with
  | Some j => if revision j =? b2JointId.revision id then Some j else None
  | None => None
  end.

(** *** Setters *)

(** The members of the definitions that the setters of the specification
    are about: motor speed, largest motor force or torque, spring frequency
    and damping ratio, under the names the seven definitions give them. *)
Inductive tunable : Type :=
| T_motorSpeed
| T_maxMotorForce
| T_maxMotorTorque
| T_maxForce
| T_maxTorque
| T_hertz
| T_dampingRatio
| T_linearHertz
| T_angularHertz
| T_linearDampingRatio
| T_angularDampingRatio.

(** [write t v d]: the definition [d] with its member [t] set to [v]; there
    is none if a definition of this kind has no such member. *)
Definition write (t : tunable) (v : float) (d : b2JointDef) : option b2JointDef :=
  match t, d with
  | T_motorSpeed, DistanceDef d => Some (DistanceDef (distance_with_motorSpeed v d))
  | T_motorSpeed, PrismaticDef d => Some (PrismaticDef (prismatic_with_motorSpeed v d))
  | T_motorSpeed, RevoluteDef d => Some (RevoluteDef (revolute_with_motorSpeed v d))
  | T_motorSpeed, WheelDef d => Some (WheelDef (b2WheelJointDef.with_motorSpeed v d))
  | T_maxMotorForce, DistanceDef d => Some (DistanceDef (distance_with_maxMotorForce v d))
  | T_maxMotorForce, PrismaticDef d => Some (PrismaticDef (prismatic_with_maxMotorForce v d))
  | T_maxMotorTorque, RevoluteDef d => Some (RevoluteDef (revolute_with_maxMotorTorque v d))
  | T_maxMotorTorque, WheelDef d => Some (WheelDef (b2WheelJointDef.with_maxMotorTorque v d))
  | T_maxForce, MotorDef d => Some (MotorDef (motor_with_maxForce v d))
  | T_maxForce, MouseDef d => Some (MouseDef (mouse_with_maxForce v d))
  | T_maxTorque, MotorDef d => Some (MotorDef (motor_with_maxTorque v d))
  | T_hertz, DistanceDef d => Some (DistanceDef (distance_with_hertz v d))
  | T_hertz, MouseDef d => Some (MouseDef (mouse_with_hertz v d))
  | T_hertz, PrismaticDef d => Some (PrismaticDef (prismatic_with_hertz v d))
  | T_hertz, RevoluteDef d => Some (RevoluteDef (revolute_with_hertz v d))
  | T_hertz, WheelDef d => Some (WheelDef (b2WheelJointDef.with_hertz v d))
  | T_dampingRatio, DistanceDef d => Some (DistanceDef (distance_with_dampingRatio v d))
  | T_dampingRatio, MouseDef d => Some (MouseDef (mouse_with_dampingRatio v d))
  | T_dampingRatio, PrismaticDef d => Some (PrismaticDef (prismatic_with_dampingRatio v d))
  | T_dampingRatio, RevoluteDef d => Some (RevoluteDef (revolute_with_dampingRatio v d))
  | T_dampingRatio, WheelDef d => Some (WheelDef (b2WheelJointDef.with_dampingRatio v d))
  | T_linearHertz, WeldDef d => Some (WeldDef (weld_with_linearHertz v d))
  | T_angularHertz, WeldDef d => Some (WeldDef (weld_with_angularHertz v d))
  | T_linearDampingRatio, WeldDef d => Some (WeldDef (weld_with_linearDampingRatio v d))
  | T_angularDampingRatio, WeldDef d => Some (WeldDef (weld_with_angularDampingRatio v d))
  | _, _ => None
  end.

Definition read (t : tunable) (d : b2JointDef) : option float :=
  match t, d with
  | T_motorSpeed, DistanceDef d => Some (b2DistanceJointDef.motorSpeed d)
  | T_motorSpeed, PrismaticDef d => Some (b2PrismaticJointDef.motorSpeed d)
  | T_motorSpeed, RevoluteDef d => Some (b2RevoluteJointDef.motorSpeed d)
  | T_motorSpeed, WheelDef d => Some (b2WheelJointDef.motorSpeed d)
  | T_maxMotorForce, DistanceDef d => Some (b2DistanceJointDef.maxMotorForce d)
  | T_maxMotorForce, PrismaticDef d => Some (b2PrismaticJointDef.maxMotorForce d)
  | T_maxMotorTorque, RevoluteDef d => Some (b2RevoluteJointDef.maxMotorTorque d)
  | T_maxMotorTorque, WheelDef d => Some (b2WheelJointDef.maxMotorTorque d)
  | T_maxForce, MotorDef d => Some (b2MotorJointDef.maxForce d)
  | T_maxForce, MouseDef d => Some (b2MouseJointDef.maxForce d)
  | T_maxTorque, MotorDef d => Some (b2MotorJointDef.maxTorque d)
  | T_hertz, DistanceDef d => Some (b2DistanceJointDef.hertz d)
  | T_hertz, MouseDef d => Some (b2MouseJointDef.hertz d)
  | T_hertz, PrismaticDef d => Some (b2PrismaticJointDef.hertz d)
  | T_hertz, RevoluteDef d => Some (b2RevoluteJointDef.hertz d)
  | T_hertz, WheelDef d => Some (b2WheelJointDef.hertz d)
  | T_dampingRatio, DistanceDef d => Some (b2DistanceJointDef.dampingRatio d)
  | T_dampingRatio, MouseDef d => Some (b2MouseJointDef.dampingRatio d)
  | T_dampingRatio, PrismaticDef d => Some (b2PrismaticJointDef.dampingRatio d)
  | T_dampingRatio, RevoluteDef d => Some (b2RevoluteJointDef.dampingRatio d)
  | T_dampingRatio, WheelDef d => Some (b2WheelJointDef.dampingRatio d)
  | T_linearHertz, WeldDef d => Some (b2WeldJointDef.linearHertz d)
  | T_angularHertz, WeldDef d => Some (b2WeldJointDef.angularHertz d)
  | T_linearDampingRatio, WeldDef d => Some (b2WeldJointDef.linearDampingRatio d)
  | T_angularDampingRatio, WeldDef d => Some (b2WeldJointDef.angularDampingRatio d)
  | _, _ => None
  end.

Definition b2JointType_eqb (a b : b2JointType) : bool :=
  match a, b with
  | b2_distanceJoint, b2_distanceJoint | b2_motorJoint, b2_motorJoint
  | b2_mouseJoint, b2_mouseJoint | b2_prismaticJoint, b2_prismaticJoint
  | b2_revoluteJoint, b2_revoluteJoint | b2_weldJoint, b2_weldJoint
  | b2_wheelJoint, b2_wheelJoint => true
  | _, _ => false
  end.

(** Modelled from the spec: <<SetX(handle, value) setters mutate
    definition-level tunables ... without resetting accumulated impulses>>;
    they are <<per-type setters/getters on live handles; fail with
    InvalidHandle otherwise>>.  [set_tunable ty t] is the setter of joint
    type [ty] for the member [t], as [b2WheelJoint_SetMotorSpeed] is the one
    of wheel joints for [motorSpeed]: it needs a live handle of a joint of
    its own type, and that type to have the member. *)
Definition set_tunable (ty : b2JointType) (t : tunable) (id : b2JointId) (v : float)
    (reg : gmap Z b2Joint) : error + gmap Z b2Joint :=
  match live reg id with
  | Some j =>
      if b2JointType_eqb (joint_type_of (def j)) ty then
        match write t v (def j) with
        | Some d' => inr (<[b2JointId.index1 id := with_def d' j]> reg)
        | None => inl InvalidHandle
        end
      else inl InvalidHandle
  | None => inl InvalidHandle
  end.

(** Two definitions that agree on all members but [t]: overwriting that
    member makes them equal. *)
Definition same_but (t : tunable) (d d' : b2JointDef) : Prop :=
  forall v, write t v d = write t v d'.

(** A run of setter calls, the outcome of each ignored as a caller of a
    [void] function does: a call that fails changes nothing. *)
Definition apply_call (reg : gmap Z b2Joint)
    (c : b2JointType * tunable * b2JointId * float) : gmap Z b2Joint :=
  let '(ty, t, id, v) := c in
  match set_tunable ty t id v reg with
  | inr reg' => reg'
  | inl _ => reg
  end.

Definition apply_calls (cs : list (b2JointType * tunable * b2JointId * float))
    (reg : gmap Z b2Joint) : gmap Z b2Joint :=
  fold_left apply_call cs reg.

(** The four wheel-joint setters the car sample calls. *)
Inductive setter : Type :=
| SetMotorSpeed
| SetMaxMotorTorque
| SetSpringHertz
| SetSpringDampingRatio.

Definition tunable_of (s : setter) : tunable :=
  match s with
  | SetMotorSpeed => T_motorSpeed
  | SetMaxMotorTorque => T_maxMotorTorque
  | SetSpringHertz => T_hertz
  | SetSpringDampingRatio => T_dampingRatio
  end.

Definition set (s : setter) (id : b2JointId) (v : float) (reg : gmap Z b2Joint)
    : error + gmap Z b2Joint :=
  set_tunable b2_wheelJoint (tunable_of s) id v reg.

End JointRegistry.

(** ** The motor in the velocity solver (specification 4.2) *)

Module Motor.

Local Open Scope Q_scope.

(** The specification states the solver over real quantities; the model
    computes with exact rationals, so that impulses add up without rounding
    and the total a step applies is a number one can speak of. *)














End Motor.

(* ===================================================================== *)
(** * Vocabulary of the properties                                        *)
(* ===================================================================== *)

(** The members every definition is said to share. *)
Definition common_members (ms : list member) : bool :=
  has_body_refs ms && has_local_anchors ms && has_collide_flag ms && has_user_data ms.

(** The joints a trace writes motor parameters of, and the joints it wakes. *)
Definition changed_joints (tr : list event) : list b2JointId := omap motor_changed tr.
Definition woken_joints (tr : list event) : list b2JointId := omap woken tr.

(** Every joint whose motor parameters the trace writes is woken later on. *)
Definition wakes_every_changed (tr : list event) : bool :=
  forallb (fun j => wakes_after j tr) (changed_joints tr).

(** The setter calls of a trace, and what they leave of a registry.  The
    car does not look at the outcome of a setter: a call on a handle that is
    not live fails and changes nothing. *)
Definition setter_call (e : event) : option (JointRegistry.setter * b2JointId * float) :=
  match e with
  | Called (b2WheelJoint_SetMotorSpeed j v) _ => Some (JointRegistry.SetMotorSpeed, j, v)
  | Called (b2WheelJoint_SetMaxMotorTorque j v) _ => Some (JointRegistry.SetMaxMotorTorque, j, v)
  | Called (b2WheelJoint_SetSpringHertz j v) _ => Some (JointRegistry.SetSpringHertz, j, v)
  | Called (b2WheelJoint_SetSpringDampingRatio j v) _ =>
      Some (JointRegistry.SetSpringDampingRatio, j, v)
  | _ => None
  end.

Definition apply_setter (reg : gmap Z JointRegistry.b2Joint)
    (c : JointRegistry.setter * b2JointId * float) : gmap Z JointRegistry.b2Joint :=
  let '(s, j, v) := c in
  match JointRegistry.set s j v reg with
  | inr reg' => reg'
  | inl _ => reg
  end.

Definition apply_setters (tr : list event) (reg : gmap Z JointRegistry.b2Joint)
    : gmap Z JointRegistry.b2Joint :=
  fold_left apply_setter (omap setter_call tr) reg.

(** What car.cpp says it sets on an axle, for scale [s] and torque [t]. *)
Record axle_settings (s t : float) (d : b2WheelJointDef) : Prop := {
  set_enableLimit : b2WheelJointDef.enableLimit d = true;
  set_lowerTranslation :
    b2WheelJointDef.lowerTranslation d = F32.mul (F32.neg (F32.dec 25 2)) s;
  set_upperTranslation :
    b2WheelJointDef.upperTranslation d = F32.mul (F32.dec 25 2) s;
  set_enableMotor : b2WheelJointDef.enableMotor d = true;
  set_motorSpeed : b2WheelJointDef.motorSpeed d = F32.zero;
  set_maxMotorTorque : b2WheelJointDef.maxMotorTorque d = t }.

Definition limits_ordered (d : b2WheelJointDef) : bool :=
  F32.leb (b2WheelJointDef.lowerTranslation d) (b2WheelJointDef.upperTranslation d).

(** A car on which [Spawn] has not been called yet: a new one, or one on
    which some other method ran to its end. *)
Inductive unspawned : Car.t -> Prop :=
| unspawned_new : unspawned Car.Car
| unspawned_call (c c' : Car.t) (m : Car.method) (W : Type) (h : handler W) (w : W) :
    unspawned c ->
    result (run h (Car.body_of m c) w) = Returned c' ->
    unspawned c'.

(** The sign of a float that is not NaN. *)
Definition signed (s : bool) (f : float) : Prop :=
  match f with
  | S754_zero s' | S754_infinity s' | S754_finite s' _ _ => s' = s
  | S754_nan => False
  end.







(** ** A small world to run the sample in

    Handles are handed out in order of creation, a body stays where it was
    created and does not rotate, joints are not simulated.  It serves to run
    the methods on concrete inputs. *)
Module TestWorld.

Record t : Type := mk { next : Z; positions : gmap Z b2Vec2 }.

Definition empty : t := mk 1 ∅.

Definition position_of (w : t) (b : b2BodyId) : b2Vec2 :=
  default (mkVec2 F32.zero F32.zero) (positions w !! b2BodyId.index1 b).

Definition handle : handler t := fun X c w =>
  match c in call X return X * t with
  | b2ComputeHull ps n => (mkHull ps n, w)
  | b2MakePolygon hull r => (mkPolygon (points hull) r, w)
  | b2DefaultShapeDef => (b2ShapeDef.mk (F32.dec 6 1) F32.one, w)
  | b2DefaultBodyDef => (b2BodyDef.mk b2_staticBody (mkVec2 F32.zero F32.zero), w)
  | b2Add a b => (mkVec2 (F32.add (x a) (x b)) (F32.add (y a) (y b)), w)
  | b2CreateBody _ d =>
      (b2BodyId.mk (next w) 0 1,
       mk (next w + 1) (<[next w := b2BodyDef.position d]> (positions w)))
  | b2CreatePolygonShape _ _ _ => (b2ShapeId.mk (next w) 0 1, mk (next w + 1) (positions w))
  | b2CreateCircleShape _ _ _ => (b2ShapeId.mk (next w) 0 1, mk (next w + 1) (positions w))
  | b2Body_GetPosition b => (position_of w b, w)
  | b2Body_GetLocalVector _ v => (v, w)
  | b2Body_GetLocalPoint b p =>
      let o := position_of w b in
      (mkVec2 (F32.sub (x p) (x o)) (F32.sub (y p) (y o)), w)
  | b2DefaultWheelJointDef =>
      (b2WheelJointDef.mk b2BodyId.zero_init b2BodyId.zero_init
         (mkVec2 F32.zero F32.zero) (mkVec2 F32.zero F32.zero) (mkVec2 F32.zero F32.one)
         true F32.one (F32.dec 7 1) false F32.zero F32.zero false F32.zero F32.zero
         false 0, w)
  | b2CreateWheelJoint _ _ => (b2JointId.mk (next w) 0 1, mk (next w + 1) (positions w))
  | b2DestroyJoint _ => (tt, w)
  | b2DestroyBody b => (tt, mk (next w) (delete (b2BodyId.index1 b) (positions w)))
  | b2WheelJoint_SetMotorSpeed _ _ => (tt, w)
  | b2WheelJoint_SetMaxMotorTorque _ _ => (tt, w)
  | b2WheelJoint_SetSpringHertz _ _ => (tt, w)
  | b2WheelJoint_SetSpringDampingRatio _ _ => (tt, w)
  | b2Joint_WakeBodies _ => (tt, w)
  end.

(** Arguments for a car of unit scale at the origin. *)
Definition world1 : b2WorldId := b2WorldId.mk 1 1.
Definition origin : b2Vec2 := mkVec2 F32.zero F32.zero.

Definition spawned : outcome t Car.t :=
  run handle (Car.Spawn Car.Car world1 origin F32.one (F32.of_Z 5) (F32.dec 7 1)
                (F32.dec 25 1) 0) empty.

(** The car that comes out of [spawned], written out. *)
Definition car1 : Car.t :=
  Car.mk (b2BodyId.mk 1 0 1) (b2BodyId.mk 3 0 1) (b2BodyId.mk 5 0 1)
         (b2JointId.mk 7 0 1) (b2JointId.mk 8 0 1) false.

End TestWorld.

(** Between body 1 and body 2: a distance joint with inverted lengths (at
    least 5, at most -3) and its rest length left at zero, a wheel joint
    with inverted limits, and a prismatic joint. *)
Definition inverted_distance : b2DistanceJointDef :=
  b2DistanceJointDef.mk (b2BodyId.mk 1 0 1) (b2BodyId.mk 2 0 1)
    (mkVec2 F32.zero F32.zero) (mkVec2 F32.zero F32.zero) F32.zero
    true (F32.of_Z 5) (F32.dec 7 1) true (F32.of_Z 5) (F32.neg (F32.of_Z 3))
    false F32.zero F32.zero false 0.

Definition slider : b2PrismaticJointDef :=
  b2PrismaticJointDef.mk (b2BodyId.mk 1 0 1) (b2BodyId.mk 2 0 1)
    (mkVec2 F32.zero F32.zero) (mkVec2 F32.zero F32.zero) (mkVec2 F32.one F32.zero)
    F32.zero false F32.zero F32.zero true (F32.neg F32.one) F32.one
    true (F32.of_Z 100) (F32.of_Z 2) false 0.

(** An engine in which every body is live, the anchors of a distance joint
    are 2 apart, and the smallest stable length is 0.005. *)
Definition engine1 : JointRegistry.engine :=
  JointRegistry.mkEngine (fun _ => true) (fun _ => F32.of_Z 2) (F32.dec 5 3).

Definition inverted_wheel : b2WheelJointDef :=
  b2WheelJointDef.mk (b2BodyId.mk 1 0 1) (b2BodyId.mk 2 0 1)
    (mkVec2 F32.zero F32.zero) (mkVec2 F32.zero F32.zero) (mkVec2 F32.zero F32.one)
    true F32.one (F32.dec 7 1) true (F32.dec 25 2) (F32.neg (F32.dec 25 2))
    true (F32.of_Z 10) F32.zero false 0.

(** A registry holding [inverted_wheel] and [slider] as created, with some
    impulse accumulated since. *)
Definition registry1 : gmap Z JointRegistry.b2Joint :=
  <[ 2 := JointRegistry.mkJoint 1 (swap_inverted (PrismaticDef slider))
            (JointRegistry.mkImpulses (mkVec2 F32.zero F32.one) F32.zero
               F32.zero F32.zero (F32.of_Z 3)) ]>
  {[ 1 := JointRegistry.mkJoint 1 (swap_inverted (WheelDef inverted_wheel))
            (JointRegistry.mkImpulses (mkVec2 F32.one F32.zero) F32.zero
               F32.zero (F32.dec 5 1) (F32.of_Z 2)) ]}.



(* ===================================================================== *)
(** * Vocabulary of further properties of the sample and the header       *)
(* ===================================================================== *)

(** More ways to read a trace: the bodies and shapes created, what was
    destroyed, and the joint handles handed to the library. *)
Definition created_body (e : event) : option (b2WorldId * b2BodyDef * b2BodyId) :=
  match e with
  | Called c r =>
      match c in call X return X -> option (b2WorldId * b2BodyDef * b2BodyId) with
      | b2CreateBody w d => fun id => Some (w, d, id)
      | _ => fun _ => None
      end r
  end.

Inductive shape_geometry : Type :=
| polygon_shape (p : b2Polygon)
| circle_shape (c : b2Circle).

Definition created_shape (e : event) : option (b2BodyId * b2ShapeDef * shape_geometry) :=
  match e with
  | Called (b2CreatePolygonShape b d p) _ => Some (b, d, polygon_shape p)
  | Called (b2CreateCircleShape b d c) _ => Some (b, d, circle_shape c)
  | _ => None
  end.

Inductive destroyed_object : Type :=
| destroyed_joint (j : b2JointId)
| destroyed_body (b : b2BodyId).

Definition destroyed (e : event) : option destroyed_object :=
  match e with
  | Called (b2DestroyJoint j) _ => Some (destroyed_joint j)
  | Called (b2DestroyBody b) _ => Some (destroyed_body b)
  | _ => None
  end.

(** The joint handle a call passes to the library, if it passes one. *)
Definition joint_handle (e : event) : option b2JointId :=
  match e with
  | Called (b2DestroyJoint j) _ => Some j
  | Called (b2WheelJoint_SetMotorSpeed j _) _ => Some j
  | Called (b2WheelJoint_SetMaxMotorTorque j _) _ => Some j
  | Called (b2WheelJoint_SetSpringHertz j _) _ => Some j
  | Called (b2WheelJoint_SetSpringDampingRatio j _) _ => Some j
  | Called (b2Joint_WakeBodies j) _ => Some j
  | _ => None
  end.

(** Both coordinates of a vertex times [s]. *)
Definition scale_by (s : float) (v : b2Vec2) : b2Vec2 :=
  mkVec2 (F32.mul (x v) s) (F32.mul (y v) s).

(** A car as a program can have it: a new one, taken through any methods,
    [Spawn] included, each run to its end in some world. *)
Inductive reachable : Car.t -> Prop :=
| reachable_new : reachable Car.Car
| reachable_call (c c' : Car.t) (m : Car.method) (W : Type) (h : handler W) (w : W) :
    reachable c ->
    result (run h (Car.body_of m c) w) = Returned c' ->
    reachable c'
| reachable_spawn (c c' : Car.t) (W : Type) (h : handler W) (w : W)
    (worldId : b2WorldId) (position : b2Vec2)
    (scale hertz dampingRatio torque : float) (userData : void_ptr) :
    reachable c ->
    result (run h (Car.Spawn c worldId position scale hertz dampingRatio torque userData) w)
      = Returned c' ->
    reachable c'.

(** [declares ms n]: there is a member called [n], of whatever type. *)
Definition declares (ms : list member) (n : string) : bool :=
  match find_member ms n with
  | Some _ => true
  | None => false
  end.

(** A pair of limit bounds among the members, under any of its names. *)
Definition has_limit_pair (ms : list member) : bool :=
  (has_member ms c_float "minLength" && has_member ms c_float "maxLength")
  || (has_member ms c_float "lowerTranslation" && has_member ms c_float "upperTranslation")
  || (has_member ms c_float "lowerAngle" && has_member ms c_float "upperAngle").

(** A frequency with its damping ratio among the members. *)
Definition has_spring_pair (ms : list member) : bool :=
  (has_member ms c_float "hertz" && has_member ms c_float "dampingRatio")
  || (has_member ms c_float "linearHertz" && has_member ms c_float "linearDampingRatio"
      && has_member ms c_float "angularHertz" && has_member ms c_float "angularDampingRatio").

(** How the two limits of a wheel joint definition stand to one another
    when they are [-0.25f * s] and [0.25f * s]: equal to one another's
    opposite exactly when [s] is a number, the wrong way round when [s] is
    negative, and incomparable when [s] is not a number. *)
Definition opposite_limits (s : float) (d : b2WheelJointDef) : Prop :=
  let lo := b2WheelJointDef.lowerTranslation d in
  let hi := b2WheelJointDef.upperTranslation d in
  F32.eqb lo (F32.neg hi) = negb (F32.is_nan s) /\
  (F32.is_nan s = false -> lo = F32.neg hi /\ F32.is_nan lo = false) /\
  (F32.ltb s F32.zero = true -> F32.leb hi lo = true /\ F32.ltb lo hi = false) /\
  (F32.is_nan s = true ->
   F32.is_nan lo = true /\ F32.is_nan hi = true /\
   limits_ordered d = false /\ F32.leb hi lo = false).

(** The car of the test world with its flag raised by hand. *)
Definition flagged_car1 : Car.t := Car.with_isSpawned true TestWorld.car1.

(* ===================================================================== *)
(** * Facts about single-precision arithmetic                             *)
(* ===================================================================== *)

Section Rounding.
Variables prec emax : Z.

Lemma shr_1_nonneg mrs : 0 <= shr_m mrs -> 0 <= shr_m (shr_1 mrs).
Proof.
  destruct mrs as [m r s]; simpl.
  destruct m as [|p|p]; [ | destruct p | destruct p ]; simpl; lia.
Qed.

Lemma iter_shr_1_nonneg p :
  forall mrs, 0 <= shr_m mrs -> 0 <= shr_m (SpecFloat.iter_pos shr_1 p mrs).
Proof.
  induction p as [p IH|p IH|]; intros mrs H; simpl.
  - apply IH, IH, shr_1_nonneg, H.
  - apply IH, IH, H.
  - apply shr_1_nonneg, H.
Qed.

Lemma shr_fexp_nonneg m e l : 0 <= m -> 0 <= shr_m (fst (shr_fexp prec emax m e l)).
Proof.
  intros H. unfold shr_fexp, shr.
  assert (H0 : 0 <= shr_m (shr_record_of_loc m l)) by (destruct l as [|[]]; exact H).
  destruct (fexp prec emax (Zdigits2 m + e) - e); simpl; auto.
  apply iter_shr_1_nonneg, H0.
Qed.

Lemma round_nearest_even_nonneg m l : 0 <= m -> 0 <= round_nearest_even m l.
Proof.
  intros H. destruct l as [|[]]; simpl; try lia.
  destruct (Z.even m); lia.
Qed.

(** Rounding a non-negative mantissa never gives NaN, and keeps the sign. *)
Lemma binary_round_aux_signed s m e l :
  0 <= m -> signed s (binary_round_aux prec emax s m e l).
Proof.
  intros H. unfold binary_round_aux.
  pose proof (shr_fexp_nonneg m e l H) as H1.
  destruct (shr_fexp prec emax m e l) as [mrs1 e1]; simpl in H1.
  pose proof (shr_fexp_nonneg _ e1 loc_Exact
                (round_nearest_even_nonneg _ (loc_of_shr_record mrs1) H1)) as H2.
  destruct (shr_fexp prec emax _ e1 loc_Exact) as [mrs2 e2]; simpl in H2.
  destruct (shr_m mrs2) as [|q|q]; simpl; [reflexivity | | lia].
  destruct (e2 <=? emax - prec); reflexivity.
Qed.

(** Rounding to nearest even is symmetric about zero. *)
Lemma binary_round_aux_opp s m e l :
  binary_round_aux prec emax (negb s) m e l = SFopp (binary_round_aux prec emax s m e l).
Proof.
  unfold binary_round_aux.
  destruct (shr_fexp prec emax m e l) as [mrs1 e1].
  destruct (shr_fexp prec emax _ e1 loc_Exact) as [mrs2 e2].
  destruct (shr_m mrs2); simpl; [reflexivity | | reflexivity].
  destruct (e2 <=? emax - prec); reflexivity.
Qed.

Lemma SFmul_opp_l a b : SFmul prec emax (SFopp a) b = SFopp (SFmul prec emax a b).
Proof.
  destruct a as [sa|sa| |sa ma ea], b as [sb|sb| |sb mb eb]; simpl; try reflexivity;
    try (destruct sa, sb; reflexivity).
  rewrite <- binary_round_aux_opp. destruct sa, sb; reflexivity.
Qed.

End Rounding.

Lemma SFcompare_antisym a b : SFcompare b a = option_map CompOpp (SFcompare a b).
Proof.
  destruct a as [sa|sa| |sa ma ea], b as [sb|sb| |sb mb eb]; simpl; try reflexivity;
    try (destruct sa; try destruct sb; reflexivity).
  pose proof (Pos.compare_cont_antisym ma mb Eq) as HP; simpl in HP.
  destruct sa, sb; simpl; try reflexivity;
    rewrite (Z.compare_antisym ea eb); destruct (ea ?= eb); simpl; try reflexivity;
    rewrite <- HP; destruct (Pos.compare_cont Eq ma mb); reflexivity.
Qed.

Lemma ltb_leb a b : F32.ltb a b = true -> F32.leb a b = true.
Proof.
  unfold F32.ltb, F32.leb, SFltb, SFleb. destruct (SFcompare a b) as [[]|]; congruence.
Qed.

Lemma ltb_asym a b : F32.ltb a b = true -> F32.ltb b a = false.
Proof.
  unfold F32.ltb, SFltb. rewrite (SFcompare_antisym a b).
  destruct (SFcompare a b) as [[]|]; simpl; congruence.
Qed.

Lemma leb_not_ltb a b : F32.leb a b = true -> F32.ltb b a = false.
Proof.
  unfold F32.ltb, F32.leb, SFltb, SFleb. rewrite (SFcompare_antisym a b).
  destruct (SFcompare a b) as [[]|]; simpl; congruence.
Qed.

(** [0 <= s] leaves a zero, plus infinity or a positive number. *)
Lemma leb_zero_cases s :
  F32.leb F32.zero s = true ->
  (exists z, s = S754_zero z) \/ s = S754_infinity false \/
  exists m e, s = S754_finite false m e.
Proof.
  unfold F32.leb, SFleb, F32.zero.
  destruct s as [z|[]| |[] m e]; simpl; intros H; try discriminate; eauto.
Qed.

Lemma leb_opp_self u : signed false u -> F32.leb (F32.neg u) u = true.
Proof.
  destruct u as [z|z| |z m e]; simpl; intros H; try contradiction; subst; reflexivity.
Qed.

(** [-0.25f * s <= 0.25f * s] for every [s >= 0]: the two products round to
    opposite values. *)
Lemma quarter_scale_ordered s :
  F32.leb F32.zero s = true ->
  F32.leb (F32.mul (F32.neg (F32.dec 25 2)) s) (F32.mul (F32.dec 25 2) s) = true.
Proof.
  intros H. unfold F32.mul, F32.neg. rewrite SFmul_opp_l.
  change (F32.dec 25 2) with (S754_finite false 8388608 (-25)).
  destruct (leb_zero_cases s H) as [[z ->]|[->|(m & e & ->)]].
  - destruct z; reflexivity.
  - reflexivity.
  - apply leb_opp_self. simpl. apply binary_round_aux_signed. lia.
Qed.

Lemma SFcompare_refl a : F32.is_nan a = false -> SFcompare a a = Some Eq.
Proof.
  destruct a as [z|z| |z m e]; simpl; intros H; try discriminate; try (destruct z; reflexivity).
  rewrite Z.compare_refl, Pos.compare_cont_refl. destruct z; reflexivity.
Qed.

Lemma leb_refl a : F32.is_nan a = false -> F32.leb a a = true.
Proof. intros H. unfold F32.leb, SFleb. rewrite (SFcompare_refl a H). reflexivity. Qed.

Lemma eqb_refl a : F32.is_nan a = false -> F32.eqb a a = true.
Proof. intros H. unfold F32.eqb, SFeqb. rewrite (SFcompare_refl a H). reflexivity. Qed.

(** Only numbers are below one another. *)
Lemma ltb_numbers a b :
  F32.ltb a b = true -> F32.is_nan a = false /\ F32.is_nan b = false.
Proof.
  unfold F32.ltb, SFltb. destruct a, b; simpl; intros H; try discriminate; auto.
Qed.

(** A quarter of a number is a number. *)
Lemma quarter_scale_number s :
  F32.is_nan s = false -> F32.is_nan (F32.mul (F32.dec 25 2) s) = false.
Proof.
  change (F32.dec 25 2) with (S754_finite false 8388608 (-25)).
  destruct s as [z|z| |z m e]; simpl; intros H; try discriminate; try reflexivity.
  pose proof (binary_round_aux_signed F32.prec F32.emax (xorb false z)
                (Z.pos (8388608 * m)) (-25 + e) loc_Exact) as K.
  unfold F32.mul. cbn [SFmul].
  destruct (binary_round_aux _ _ _ _ _ _); try reflexivity.
  exfalso. apply K. lia.
Qed.

(* ===================================================================== *)
(** * Running the methods of the car                                      *)
(* ===================================================================== *)

Section Run.
Context {W : Type} (h : handler W).

Lemma run_Do {A X} (c : call X) (k : X -> prog A) (w : W) :
  run h (Do c k) w =
  logged (Called c (fst (h _ c w))) (run h (k (fst (h _ c w))) (snd (h _ c w))).
Proof. reflexivity. Qed.

Lemma run_Ret {A} (a : A) (w : W) : run h (Ret a) w = mkOutcome (Returned a) w [].
Proof. reflexivity. Qed.

End Run.

Lemma Spawn_asserts_inv c :
  Car.Spawn_asserts c = true ->
  Car.m_isSpawned c = false /\
  b2BodyId.index1 (Car.m_chassisId c) = 0 /\
  b2BodyId.index1 (Car.m_frontWheelId c) = 0 /\
  b2BodyId.index1 (Car.m_rearWheelId c) = 0.
Proof.
  unfold Car.Spawn_asserts, b2BodyId.B2_IS_NULL.
  rewrite !andb_true_iff, !Z.eqb_eq.
  destruct (Car.m_isSpawned c); simpl; intuition congruence.
Qed.

Lemma b2JointId_eqb_refl j : b2JointId.eqb j j = true.
Proof. unfold b2JointId.eqb. rewrite !Z.eqb_refl. reflexivity. Qed.

(** Take a car that passes the assertions of [Spawn] apart. *)
Ltac open_car c H :=
  destruct (Spawn_asserts_inv c H) as (?Hs & ?Hc & ?Hf & ?Hr);
  destruct c as [[ci cw cr] [ri rw rr] [fi fw fr] ra fa sp]; simpl in *; subst.

(** Normalise a method body to its tree of calls, leaving arithmetic and
    [run] alone. *)
Ltac call_tree H :=
  lazy -[run F32.mul F32.div F32.neg F32.dec F32.add F32.sub F32.leb F32.ltb
         F32.zero] in H.

(** Name the answer of the next call and the world after it. *)
Ltac answer H :=
  rewrite run_Do in H;
  match type of H with
  | context [fst (?h ?X ?c ?w)] => destruct (h X c w) as [? ?]
  end;
  cbn [fst snd] in H.

(** Run a method to its end, call by call. *)
Ltac run_to_end o H :=
  call_tree H; repeat answer H;
  rewrite ?run_Ret in H; cbn [logged result world trace] in H; subst o;
  cbn [result world trace].

(** [Spawn] from a car that passes its assertions: it returns, the flag is
    as it was, and exactly two wheel joints were created, the rear axle and
    then the front axle, with the settings of car.cpp. *)
Lemma Spawn_outcome (W : Type) (h : handler W) (w : W) (c : Car.t)
    worldId position scale hertz dampingRatio torque userData :
  Car.Spawn_asserts c = true ->
  exists c' dRear dFront,
    result (run h (Car.Spawn c worldId position scale hertz dampingRatio torque userData) w)
      = Returned c' /\
    Car.m_isSpawned c' = false /\
    created_wheel_joints
      (trace (run h (Car.Spawn c worldId position scale hertz dampingRatio torque userData) w))
      = [(worldId, dRear, Car.m_rearAxleId c'); (worldId, dFront, Car.m_frontAxleId c')] /\
    b2WheelJointDef.bodyIdA dRear = Car.m_chassisId c' /\
    b2WheelJointDef.bodyIdB dRear = Car.m_rearWheelId c' /\
    b2WheelJointDef.bodyIdA dFront = Car.m_chassisId c' /\
    b2WheelJointDef.bodyIdB dFront = Car.m_frontWheelId c' /\
    axle_settings scale torque dRear /\ axle_settings scale torque dFront.
Proof.
  intros H. open_car c H.
  remember (run h _ w) as o eqn:Ho.
  run_to_end o Ho.
  do 3 eexists.
  repeat match goal with |- _ /\ _ => split end;
    try reflexivity; split; reflexivity.
Qed.

(** [Despawn] on a car whose flag is down stops at its assertion, before
    any call. *)
Lemma Despawn_aborts (W : Type) (h : handler W) (w : W) (c : Car.t) :
  Car.m_isSpawned c = false ->
  run h (Car.Despawn c) w = mkOutcome (Aborted "m_isSpawned == true") w [].
Proof. intros H. unfold Car.Despawn. rewrite H. reflexivity. Qed.

(** [Spawn] on a car that fails one of its assertions stops there, before
    any call: nothing is created. *)
Lemma Spawn_aborts (W : Type) (h : handler W) (w : W) (c : Car.t)
    worldId position scale hertz dampingRatio torque userData :
  Car.Spawn_asserts c = false ->
  exists e,
    run h (Car.Spawn c worldId position scale hertz dampingRatio torque userData) w
      = mkOutcome (Aborted e) w [].
Proof.
  unfold Car.Spawn_asserts, Car.Spawn. intros H.
  destruct (Bool.eqb (Car.m_isSpawned c) false); [|eexists; reflexivity].
  destruct (b2BodyId.B2_IS_NULL (Car.m_chassisId c)); [|eexists; reflexivity].
  destruct (b2BodyId.B2_IS_NULL (Car.m_frontWheelId c)); [|eexists; reflexivity].
  destruct (b2BodyId.B2_IS_NULL (Car.m_rearWheelId c)); [discriminate|eexists; reflexivity].
Qed.

(** The four setters hand the car back as it was. *)
Lemma setters_keep_car (W : Type) (h : handler W) (w : W) (c c' : Car.t) (m : Car.method) :
  result (run h (Car.body_of m c) w) = Returned c' ->
  m <> Car.CallDespawn -> c' = c.
Proof.
  destruct m; simpl; intros H Hm; try congruence;
    remember (run h _ w) as o eqn:Ho; run_to_end o Ho; congruence.
Qed.

Lemma unspawned_is_new c : unspawned c -> c = Car.Car.
Proof.
  induction 1 as [|c c' m W h w Hc IH Hrun]; [reflexivity|]. subst c.
  destruct m.
  - cbn [Car.body_of] in Hrun. rewrite Despawn_aborts in Hrun by reflexivity.
    discriminate.
  - eapply setters_keep_car; [exact Hrun | discriminate].
  - eapply setters_keep_car; [exact Hrun | discriminate].
  - eapply setters_keep_car; [exact Hrun | discriminate].
  - eapply setters_keep_car; [exact Hrun | discriminate].
Qed.

(* ===================================================================== *)
(** * samples/car.cpp: the properties                                     *)
(* ===================================================================== *)

(** C4. After [Car::Spawn] returns, [m_isSpawned] is still false: [Spawn]
    never raises the flag.  A [Car::Despawn] right after a completed
    [Spawn] therefore stops at [assert(m_isSpawned == true)], in any world
    and before it destroys anything. *)
Theorem Spawn_leaves_car_unspawned (W : Type) (h : handler W) (w : W) (c : Car.t)
    worldId position scale hertz dampingRatio torque userData :
  Car.Spawn_asserts c = true ->
  exists c',
    result (run h (Car.Spawn c worldId position scale hertz dampingRatio torque userData) w)
      = Returned c' /\
    Car.m_isSpawned c' = false /\
    forall (W' : Type) (h' : handler W') (w' : W'),
      run h' (Car.Despawn c') w' = mkOutcome (Aborted "m_isSpawned == true") w' [].
Proof.
  intros H.
  destruct (Spawn_outcome W h w c worldId position scale hertz dampingRatio torque
              userData H) as (c' & dR & dF & Hres & Hflag & _).
  exists c'. split; [exact Hres|]. split; [exact Hflag|].
  intros W' h' w'. apply Despawn_aborts, Hflag.
Qed.

Lemma Spawn_leaves_car_unspawned_witness :
  Car.Spawn_asserts Car.Car = true /\
  exists c',
    result TestWorld.spawned = Returned c' /\
    Car.m_isSpawned c' = false /\
    forall (W' : Type) (h' : handler W') (w' : W'),
      run h' (Car.Despawn c') w' = mkOutcome (Aborted "m_isSpawned == true") w' [].
Proof.
  split; [reflexivity|].
  apply (Spawn_leaves_car_unspawned TestWorld.t TestWorld.handle TestWorld.empty Car.Car).
  reflexivity.
Defined.

(** C5. Every call of [Car::Spawn] with scale [s] and torque [t] creates the
    rear and the front axle wheel joints with [enableLimit = true],
    [lowerTranslation = -0.25f * s], [upperTranslation = 0.25f * s],
    [enableMotor = true], [motorSpeed = 0] and [maxMotorTorque = t]; and for
    [s >= 0] the limits of both satisfy
    [lowerTranslation <= upperTranslation]. *)
Theorem Spawn_axle_joints (W : Type) (h : handler W) (w : W) (c : Car.t)
    worldId position (s : float) hertz dampingRatio (t : float) userData :
  Car.Spawn_asserts c = true ->
  exists c' dRear dFront,
    result (run h (Car.Spawn c worldId position s hertz dampingRatio t userData) w)
      = Returned c' /\
    created_wheel_joints
      (trace (run h (Car.Spawn c worldId position s hertz dampingRatio t userData) w))
      = [(worldId, dRear, Car.m_rearAxleId c'); (worldId, dFront, Car.m_frontAxleId c')] /\
    b2WheelJointDef.bodyIdB dRear = Car.m_rearWheelId c' /\
    b2WheelJointDef.bodyIdB dFront = Car.m_frontWheelId c' /\
    axle_settings s t dRear /\ axle_settings s t dFront /\
    (F32.leb F32.zero s = true ->
     limits_ordered dRear = true /\ limits_ordered dFront = true).
Proof.
  intros H.
  destruct (Spawn_outcome W h w c worldId position s hertz dampingRatio t userData H)
    as (c' & dR & dF & Hres & _ & Htr & _ & HbR & _ & HbF & HR & HF).
  exists c', dR, dF.
  split; [exact Hres|]. split; [exact Htr|]. split; [exact HbR|]. split; [exact HbF|].
  split; [exact HR|]. split; [exact HF|].
  intros Hs. unfold limits_ordered.
  rewrite (set_lowerTranslation _ _ _ HR), (set_upperTranslation _ _ _ HR).
  rewrite (set_lowerTranslation _ _ _ HF), (set_upperTranslation _ _ _ HF).
  split; apply quarter_scale_ordered, Hs.
Qed.

Lemma Spawn_axle_joints_witness :
  Car.Spawn_asserts Car.Car = true /\
  F32.leb F32.zero F32.one = true /\
  exists c' dRear dFront,
    result TestWorld.spawned = Returned c' /\
    created_wheel_joints (trace TestWorld.spawned)
      = [(TestWorld.world1, dRear, Car.m_rearAxleId c');
         (TestWorld.world1, dFront, Car.m_frontAxleId c')] /\
    b2WheelJointDef.bodyIdB dRear = Car.m_rearWheelId c' /\
    b2WheelJointDef.bodyIdB dFront = Car.m_frontWheelId c' /\
    axle_settings F32.one (F32.dec 25 1) dRear /\
    axle_settings F32.one (F32.dec 25 1) dFront /\
    (F32.leb F32.zero F32.one = true ->
     limits_ordered dRear = true /\ limits_ordered dFront = true).
Proof.
  split; [reflexivity|]. split; [reflexivity|].
  apply (Spawn_axle_joints TestWorld.t TestWorld.handle TestWorld.empty Car.Car).
  reflexivity.
Defined.

Lemma spawned_car1 : result TestWorld.spawned = Returned TestWorld.car1.
Proof. reflexivity. Qed.

(** C6, as stated, fails.  On the car that [Spawn] made in the test world,
    [Car::SetSpeed] writes the motor speed of both axle joints (7 and 8) and
    wakes joint 7 only, so the front axle joint is written and not woken;
    [Car::SetTorque] writes the largest motor torque of both and wakes
    none. *)
Lemma SetSpeed_does_not_wake_front_axle :
  let speed := trace (run TestWorld.handle (Car.SetSpeed TestWorld.car1 (F32.of_Z 35))
                        TestWorld.empty) in
  let torque := trace (run TestWorld.handle (Car.SetTorque TestWorld.car1 (F32.of_Z 10))
                         TestWorld.empty) in
  changed_joints speed = [b2JointId.mk 7 0 1; b2JointId.mk 8 0 1] /\
  woken_joints speed = [b2JointId.mk 7 0 1] /\
  wakes_after (b2JointId.mk 8 0 1) speed = false /\
  wakes_every_changed speed = false /\
  changed_joints torque = [b2JointId.mk 7 0 1; b2JointId.mk 8 0 1] /\
  woken_joints torque = [] /\
  wakes_every_changed torque = false.
Proof. repeat split. Qed.

(** C6, amended.  [Car::SetSpeed] sets the motor speed of the rear and of
    the front axle joint and then, before it returns, calls
    [b2Joint_WakeBodies] once, on the rear axle joint: the front axle joint
    is woken only if it is that same joint.  [Car::SetTorque] sets the
    largest motor torque of the rear and of the front axle joint. *)
Theorem SetSpeed_wakes_rear_axle_only (W : Type) (h : handler W) (w : W) (c : Car.t)
    (v : float) :
  let speed := trace (run h (Car.SetSpeed c v) w) in
  let torque := trace (run h (Car.SetTorque c v) w) in
  changed_joints speed = [Car.m_rearAxleId c; Car.m_frontAxleId c] /\
  woken_joints speed = [Car.m_rearAxleId c] /\
  wakes_after (Car.m_rearAxleId c) speed = true /\
  wakes_after (Car.m_frontAxleId c) speed
    = b2JointId.eqb (Car.m_rearAxleId c) (Car.m_frontAxleId c) /\
  changed_joints torque = [Car.m_rearAxleId c; Car.m_frontAxleId c].
Proof.
  cbv zeta. destruct c as [ch rw fw ra fa sp].
  remember (run h (Car.SetSpeed _ v) w) as o1 eqn:H1.
  remember (run h (Car.SetTorque _ v) w) as o2 eqn:H2.
  run_to_end o1 H1. run_to_end o2 H2.
  repeat split.
  - cbn. rewrite !b2JointId_eqb_refl. cbn.
    destruct (b2JointId.eqb fa ra); reflexivity.
  - cbn. rewrite !b2JointId_eqb_refl. cbn.
    destruct (b2JointId.eqb ra fa); cbn; rewrite ?andb_true_r; reflexivity.
Qed.

(** C10. A freshly constructed [Car] has null chassis, rear-wheel,
    front-wheel, rear-axle and front-axle ids and [m_isSpawned == false];
    so has every [Car] on which [Spawn] has not been called yet, and on
    such a car the assertions at the start of [Spawn] hold: [Spawn] runs to
    its end in any world. *)
Theorem new_car_meets_Spawn_asserts (c : Car.t) :
  unspawned c ->
  b2BodyId.B2_IS_NULL (Car.m_chassisId c) = true /\
  b2BodyId.B2_IS_NULL (Car.m_rearWheelId c) = true /\
  b2BodyId.B2_IS_NULL (Car.m_frontWheelId c) = true /\
  b2JointId.B2_IS_NULL (Car.m_rearAxleId c) = true /\
  b2JointId.B2_IS_NULL (Car.m_frontAxleId c) = true /\
  Car.m_isSpawned c = false /\
  Car.Spawn_asserts c = true /\
  forall (W : Type) (h : handler W) (w : W)
         worldId position scale hertz dampingRatio torque userData,
  exists c',
    result (run h (Car.Spawn c worldId position scale hertz dampingRatio torque userData) w)
      = Returned c'.
Proof.
  intros H. rewrite (unspawned_is_new c H).
  repeat split.
  intros W h w worldId position scale hertz dampingRatio torque userData.
  destruct (Spawn_outcome W h w Car.Car worldId position scale hertz dampingRatio torque
              userData eq_refl) as (c' & _ & _ & Hres & _).
  exists c'. exact Hres.
Qed.

Lemma new_car_meets_Spawn_asserts_witness :
  unspawned Car.Car /\
  b2BodyId.B2_IS_NULL (Car.m_chassisId Car.Car) = true /\
  b2BodyId.B2_IS_NULL (Car.m_rearWheelId Car.Car) = true /\
  b2BodyId.B2_IS_NULL (Car.m_frontWheelId Car.Car) = true /\
  b2JointId.B2_IS_NULL (Car.m_rearAxleId Car.Car) = true /\
  b2JointId.B2_IS_NULL (Car.m_frontAxleId Car.Car) = true /\
  Car.m_isSpawned Car.Car = false /\
  Car.Spawn_asserts Car.Car = true /\
  forall (W : Type) (h : handler W) (w : W)
         worldId position scale hertz dampingRatio torque userData,
  exists c',
    result (run h (Car.Spawn Car.Car worldId position scale hertz dampingRatio torque
                     userData) w)
      = Returned c'.
Proof.
  split; [exact unspawned_new|].
  apply (new_car_meets_Spawn_asserts Car.Car). exact unspawned_new.
Defined.

(* ===================================================================== *)
(** * include/box2d/joint_types.h: the properties                         *)
(* ===================================================================== *)

(** C1, as stated, fails: the mouse joint definition has the two body
    references, the flag and the user data, but no local anchor points; it
    carries a target in world space. *)
Lemma mouse_def_has_no_local_anchors :
  common_members (members_of b2_mouseJoint) = false /\
  has_local_anchors (members_of b2_mouseJoint) = false /\
  (m_doc <$> find_member (members_of b2_mouseJoint) "target")
    = Some "The initial target point in world space"%string.
Proof. repeat split. Qed.

(** C1, amended.  Every joint definition (Distance, Motor, Mouse, Prismatic,
    Revolute, Weld, Wheel) contains the two body references [bodyIdA] and
    [bodyIdB], the [collideConnected] flag and the [userData] pointer.  The
    Distance, Prismatic, Revolute, Weld and Wheel definitions contain a
    local anchor point on each body ([localAnchorA], [localAnchorB]); the
    Motor definition has a [linearOffset] in body A's frame and the Mouse
    definition a [target] in world space instead. *)
Theorem joint_defs_common_members (ty : b2JointType) :
  has_body_refs (members_of ty) = true /\
  has_collide_flag (members_of ty) = true /\
  has_user_data (members_of ty) = true /\
  has_local_anchors (members_of ty)
    = match ty with
      | b2_motorJoint | b2_mouseJoint => false
      | _ => true
      end /\
  has_member (members_of b2_motorJoint) c_b2Vec2 "linearOffset" = true /\
  has_member (members_of b2_mouseJoint) c_b2Vec2 "target" = true.
Proof. destruct ty; repeat split. Qed.

(** C7. The motor of the prismatic joint definition is linear, with
    [maxMotorForce] in newtons and [motorSpeed] in meters per second; the
    motor of the wheel joint definition is rotational, with [maxMotorTorque]
    in newton-meters and [motorSpeed] in radians per second. *)
Theorem prismatic_motor_linear_wheel_motor_rotational :
  motor_of (members_of b2_prismaticJoint)
    = Some (linear_motor (Some newtons) (Some meters_per_second)) /\
  motor_of (members_of b2_wheelJoint)
    = Some (rotational_motor (Some newton_meters) (Some radians_per_second)) /\
  find_member (members_of b2_prismaticJoint) "maxMotorTorque" = None /\
  find_member (members_of b2_wheelJoint) "maxMotorForce" = None.
Proof. repeat split. Qed.

(* ===================================================================== *)
(** * The joint subsystem: the properties                                 *)
(* ===================================================================== *)



Lemma max_ge_r a s : F32.is_nan s = false -> F32.leb s (F32.max a s) = true.
Proof.
  intros Hs. unfold F32.max. destruct (F32.ltb s a) eqn:E.
  - apply ltb_leb, E.
  - apply leb_refl, Hs.
Qed.

Lemma max_number a s : F32.is_nan s = false -> F32.is_nan (F32.max a s) = false.
Proof.
  intros Hs. unfold F32.max. destruct (F32.ltb s a) eqn:E; [|exact Hs].
  apply (ltb_numbers s a E).
Qed.

Lemma max_lower_bound s a b :
  F32.leb s a = true -> F32.leb s b = true -> F32.leb s (F32.max a b) = true.
Proof. intros Ha Hb. unfold F32.max. destruct (F32.ltb b a); assumption. Qed.

(** Clamped lengths: all three are at least the minimum, and the bounds are
    in order. *)
Lemma clamp_lengths_ok slop d :
  F32.ltb F32.zero slop = true ->
  let d' := clamp_lengths slop d in
  F32.leb slop (b2DistanceJointDef.length d') = true /\
  F32.leb slop (b2DistanceJointDef.minLength d') = true /\
  F32.leb slop (b2DistanceJointDef.maxLength d') = true /\
  F32.leb (b2DistanceJointDef.minLength d') (b2DistanceJointDef.maxLength d') = true.
Proof.
  intros Hs. cbv zeta.
  assert (Hn : F32.is_nan slop = false) by apply (ltb_numbers _ _ Hs).
  unfold clamp_lengths; cbn.
  split; [apply max_ge_r, Hn|]. split; [apply max_ge_r, Hn|].
  split.
  - apply max_lower_bound; apply max_ge_r, Hn.
  - apply max_ge_r, max_number, Hn.
Qed.

(** C3. A joint definition whose limit bounds are inverted ([maxLength <
    minLength], or [upperTranslation] / [upperAngle] below the lower bound)
    is not rejected for it: creation succeeds as for any valid definition,
    and the stored joint has the bounds swapped -- and, for the lengths of
    a distance joint, clamped to the positive minimum -- so that lower <=
    upper holds and the stored bounds are not inverted. *)
Theorem Create_orders_inverted_limits (e : JointRegistry.engine) (d : b2JointDef)
    (reg : gmap Z JointRegistry.b2Joint) (lo hi : float) :
  limits_of d = Some (lo, hi) ->
  F32.ltb hi lo = true ->
  JointRegistry.validate e d = true ->
  F32.ltb F32.zero (JointRegistry.linearSlop e) = true ->
  exists id reg' j lo' hi',
    JointRegistry.Create e d reg = inr (id, reg') /\
    JointRegistry.live reg' id = Some j /\
    joint_type_of (JointRegistry.def j) = joint_type_of d /\
    limits_of (JointRegistry.def j) = Some (lo', hi') /\
    F32.leb lo' hi' = true /\
    inverted (JointRegistry.def j) = false /\
    match JointRegistry.def j with
    | DistanceDef dd =>
        lo' = F32.max hi (JointRegistry.linearSlop e) /\
        hi' = F32.max (F32.max lo (JointRegistry.linearSlop e)) lo' /\
        F32.leb (JointRegistry.linearSlop e) lo' = true /\
        F32.leb (JointRegistry.linearSlop e) hi' = true /\
        F32.leb (JointRegistry.linearSlop e) (b2DistanceJointDef.length dd) = true
    | _ => lo' = hi /\ hi' = lo
    end.
Proof.
  intros Hl Hlt Hv Hs. unfold JointRegistry.Create. rewrite Hv.
  assert (Hlive : forall i (jt : JointRegistry.b2Joint),
             JointRegistry.revision jt = 1 ->
             JointRegistry.live (<[i := jt]> reg) (b2JointId.mk i 0 1) = Some jt).
  { intros i jt Hr. unfold JointRegistry.live. cbn [b2JointId.index1 b2JointId.revision].
    rewrite lookup_insert_eq, Hr. reflexivity. }
  destruct d as [d|d|d|d|d|d|d]; cbn in Hl; try discriminate; injection Hl as <- <-.
  - (* distance: swapped, then clamped *)
    pose proof (clamp_lengths_ok (JointRegistry.linearSlop e)
                  (seed_length
                     (JointRegistry.anchor_separation e
                        (b2DistanceJointDef.with_limits (b2DistanceJointDef.maxLength d)
                           (b2DistanceJointDef.minLength d) d))
                     (b2DistanceJointDef.with_limits (b2DistanceJointDef.maxLength d)
                        (b2DistanceJointDef.minLength d) d)) Hs) as K.
    cbv zeta in K. destruct K as (K1 & K2 & K3 & K4).
    eexists _, _, (JointRegistry.make_joint e (DistanceDef d)), _, _.
    split; [reflexivity|]. split; [apply Hlive; reflexivity|].
    unfold JointRegistry.make_joint, stored_def, swap_inverted.
    cbn [JointRegistry.def limits_of]. rewrite Hlt. cbn [with_limits].
    split; [reflexivity|]. split; [reflexivity|].
    split; [exact K4|]. split; [unfold inverted; cbn [limits_of]; apply leb_not_ltb, K4|].
    split; [|split; [|split; [exact K2|split; [exact K3|exact K1]]]].
    + unfold seed_length. destruct (F32.eqb _ _); reflexivity.
    + unfold seed_length. destruct (F32.eqb _ _); reflexivity.
  - (* prismatic: swapped *)
    eexists _, _, (JointRegistry.make_joint e (PrismaticDef d)), _, _.
    split; [reflexivity|]. split; [apply Hlive; reflexivity|].
    unfold JointRegistry.make_joint, stored_def, swap_inverted.
    cbn [JointRegistry.def limits_of]. rewrite Hlt. cbn.
    repeat split; [apply ltb_leb, Hlt | apply ltb_asym, Hlt].
  - (* revolute: swapped *)
    eexists _, _, (JointRegistry.make_joint e (RevoluteDef d)), _, _.
    split; [reflexivity|]. split; [apply Hlive; reflexivity|].
    unfold JointRegistry.make_joint, stored_def, swap_inverted.
    cbn [JointRegistry.def limits_of]. rewrite Hlt. cbn.
    repeat split; [apply ltb_leb, Hlt | apply ltb_asym, Hlt].
  - (* wheel: swapped *)
    eexists _, _, (JointRegistry.make_joint e (WheelDef d)), _, _.
    split; [reflexivity|]. split; [apply Hlive; reflexivity|].
    unfold JointRegistry.make_joint, stored_def, swap_inverted.
    cbn [JointRegistry.def limits_of]. rewrite Hlt. cbn.
    repeat split; [apply ltb_leb, Hlt | apply ltb_asym, Hlt].
Qed.

Lemma Create_orders_inverted_limits_witness :
  limits_of (DistanceDef inverted_distance) = Some (F32.of_Z 5, F32.neg (F32.of_Z 3)) /\
  F32.ltb (F32.neg (F32.of_Z 3)) (F32.of_Z 5) = true /\
  JointRegistry.validate engine1 (DistanceDef inverted_distance) = true /\
  F32.ltb F32.zero (JointRegistry.linearSlop engine1) = true /\
  exists id reg' j lo' hi',
    JointRegistry.Create engine1 (DistanceDef inverted_distance) ∅ = inr (id, reg') /\
    JointRegistry.live reg' id = Some j /\
    joint_type_of (JointRegistry.def j) = joint_type_of (DistanceDef inverted_distance) /\
    limits_of (JointRegistry.def j) = Some (lo', hi') /\
    F32.leb lo' hi' = true /\
    inverted (JointRegistry.def j) = false /\
    match JointRegistry.def j with
    | DistanceDef dd =>
        lo' = F32.max (F32.neg (F32.of_Z 3)) (JointRegistry.linearSlop engine1) /\
        hi' = F32.max (F32.max (F32.of_Z 5) (JointRegistry.linearSlop engine1)) lo' /\
        F32.leb (JointRegistry.linearSlop engine1) lo' = true /\
        F32.leb (JointRegistry.linearSlop engine1) hi' = true /\
        F32.leb (JointRegistry.linearSlop engine1) (b2DistanceJointDef.length dd) = true
    | _ => lo' = F32.neg (F32.of_Z 3) /\ hi' = F32.of_Z 5
    end.
Proof.
  split; [reflexivity|]. split; [reflexivity|]. split; [reflexivity|].
  split; [reflexivity|].
  apply (Create_orders_inverted_limits engine1 (DistanceDef inverted_distance) ∅);
    reflexivity.
Defined.

Section MotorFacts.
Import Motor.
Local Open Scope Q_scope.









End MotorFacts.



Lemma write_defined t v d :
  is_Some (JointRegistry.read t d) -> is_Some (JointRegistry.write t v d).
Proof. destruct t, d; cbn; intros [x H]; try discriminate; eauto. Qed.

Lemma write_read t v d d' :
  JointRegistry.write t v d = Some d' -> JointRegistry.read t d' = Some v.
Proof. destruct t, d; cbn; intros [= <-]; reflexivity. Qed.

Lemma write_read_other t t' v d d' :
  JointRegistry.write t v d = Some d' -> t' <> t ->
  JointRegistry.read t' d' = JointRegistry.read t' d.
Proof.
  destruct t, d; cbn; intros [= <-] Hne; destruct t'; try reflexivity; congruence.
Qed.

Lemma write_type t v d d' :
  JointRegistry.write t v d = Some d' -> joint_type_of d' = joint_type_of d.
Proof. destruct t, d; cbn; intros [= <-]; reflexivity. Qed.

Lemma write_same_but t v d d' :
  JointRegistry.write t v d = Some d' -> JointRegistry.same_but t d d'.
Proof. destruct t, d; cbn; intros [= <-] v'; reflexivity. Qed.

Lemma b2JointType_eqb_refl ty : JointRegistry.b2JointType_eqb ty ty = true.
Proof. destruct ty; reflexivity. Qed.

Lemma live_revision reg id j :
  JointRegistry.live reg id = Some j ->
  reg !! b2JointId.index1 id = Some j /\
  (JointRegistry.revision j =? b2JointId.revision id) = true.
Proof.
  unfold JointRegistry.live.
  destruct (reg !! b2JointId.index1 id) as [j0|]; [|discriminate].
  destruct (JointRegistry.revision j0 =? b2JointId.revision id) eqn:E; [|discriminate].
  intros [= <-]. auto.
Qed.

(** A setter keeps every joint of the registry in place, with its
    accumulated impulses, its revision and its kind. *)
Lemma set_tunable_preserves ty t id v (reg reg' : gmap Z JointRegistry.b2Joint) k j :
  JointRegistry.set_tunable ty t id v reg = inr reg' ->
  reg !! k = Some j ->
  exists j', reg' !! k = Some j' /\
             JointRegistry.accumulated j' = JointRegistry.accumulated j /\
             JointRegistry.revision j' = JointRegistry.revision j /\
             joint_type_of (JointRegistry.def j') = joint_type_of (JointRegistry.def j).
Proof.
  unfold JointRegistry.set_tunable.
  destruct (JointRegistry.live reg id) as [j0|] eqn:E0; [|discriminate].
  destruct (live_revision reg id j0 E0) as [Hk0 _].
  destruct (JointRegistry.b2JointType_eqb _ ty); [|discriminate].
  destruct (JointRegistry.write t v (JointRegistry.def j0)) as [d'|] eqn:Ew; [|discriminate].
  intros [= <-] Hk.
  destruct (decide (k = b2JointId.index1 id)) as [->|Hne].
  - rewrite lookup_insert_eq. eexists. split; [reflexivity|].
    assert (j0 = j) by congruence. subst j0.
    cbn. repeat split. eapply write_type, Ew.
  - rewrite lookup_insert_ne by congruence. exists j. auto.
Qed.

Lemma apply_calls_preserve cs :
  forall (reg : gmap Z JointRegistry.b2Joint) k j,
    reg !! k = Some j ->
    exists j', JointRegistry.apply_calls cs reg !! k = Some j' /\
               JointRegistry.accumulated j' = JointRegistry.accumulated j /\
               JointRegistry.revision j' = JointRegistry.revision j /\
               joint_type_of (JointRegistry.def j') = joint_type_of (JointRegistry.def j).
Proof.
  unfold JointRegistry.apply_calls.
  induction cs as [|[[[ty t] id] v] cs IH]; intros reg k j Hk; cbn [fold_left].
  - exists j. auto.
  - unfold JointRegistry.apply_call at 2.
    destruct (JointRegistry.set_tunable ty t id v reg) as [e|reg'] eqn:E.
    + apply IH, Hk.
    + destruct (set_tunable_preserves ty t id v reg reg' k j E Hk)
        as (j1 & H1 & Ha & Hr & Hty).
      destruct (IH reg' k j1 H1) as (j' & H' & Ha' & Hr' & Hty').
      exists j'. split; [exact H'|]. repeat split; congruence.
Qed.

(** C9. On every live joint, each setter of a member its definition has --
    motor speed, largest motor force or torque, spring frequency, spring
    damping ratio -- succeeds and changes that one member of the joint's
    definition and nothing else: the other members are as before, the
    accumulated impulses of the joint are as before, and so is every other
    joint of the registry.  Through any run of setter calls, failed ones
    included, every joint keeps its accumulated impulses. *)
Theorem setters_keep_impulses (t : JointRegistry.tunable) (id : b2JointId) (v : float)
    (reg : gmap Z JointRegistry.b2Joint) (j : JointRegistry.b2Joint) :
  JointRegistry.live reg id = Some j ->
  is_Some (JointRegistry.read t (JointRegistry.def j)) ->
  (exists reg' j',
      JointRegistry.set_tunable (joint_type_of (JointRegistry.def j)) t id v reg = inr reg' /\
      JointRegistry.live reg' id = Some j' /\
      JointRegistry.accumulated j' = JointRegistry.accumulated j /\
      JointRegistry.read t (JointRegistry.def j') = Some v /\
      (forall t', t' <> t ->
                  JointRegistry.read t' (JointRegistry.def j')
                  = JointRegistry.read t' (JointRegistry.def j)) /\
      JointRegistry.same_but t (JointRegistry.def j) (JointRegistry.def j') /\
      joint_type_of (JointRegistry.def j') = joint_type_of (JointRegistry.def j) /\
      forall k, k <> b2JointId.index1 id -> reg' !! k = reg !! k) /\
  (forall cs k j0,
      reg !! k = Some j0 ->
      exists j1, JointRegistry.apply_calls cs reg !! k = Some j1 /\
                 JointRegistry.accumulated j1 = JointRegistry.accumulated j0).
Proof.
  intros Hlive Hread. split.
  - destruct (live_revision reg id j Hlive) as [_ Hrev].
    destruct (write_defined t v _ Hread) as [d' Hw].
    unfold JointRegistry.set_tunable.
    rewrite Hlive, b2JointType_eqb_refl, Hw.
    eexists _, (JointRegistry.with_def d' j). split; [reflexivity|].
    split.
    { unfold JointRegistry.live. rewrite lookup_insert_eq.
      cbn [JointRegistry.with_def JointRegistry.revision]. rewrite Hrev. reflexivity. }
    cbn [JointRegistry.with_def JointRegistry.def JointRegistry.accumulated].
    split; [reflexivity|]. split; [eapply write_read, Hw|].
    split; [intros t' Hne; eapply write_read_other; eassumption|].
    split; [eapply write_same_but, Hw|]. split; [eapply write_type, Hw|].
    intros k Hk. apply lookup_insert_ne. congruence.
  - intros cs k j0 Hk.
    destruct (apply_calls_preserve cs reg k j0 Hk) as (j1 & H1 & Ha & _).
    exists j1. auto.
Qed.

Lemma setters_keep_impulses_witness :
  exists j,
    JointRegistry.live registry1 (b2JointId.mk 2 0 1) = Some j /\
    is_Some (JointRegistry.read JointRegistry.T_maxMotorForce (JointRegistry.def j)) /\
    exists reg' j',
      JointRegistry.set_tunable (joint_type_of (JointRegistry.def j))
        JointRegistry.T_maxMotorForce (b2JointId.mk 2 0 1) (F32.of_Z 35) registry1
      = inr reg' /\
      JointRegistry.live reg' (b2JointId.mk 2 0 1) = Some j' /\
      JointRegistry.accumulated j' = JointRegistry.accumulated j /\
      JointRegistry.read JointRegistry.T_maxMotorForce (JointRegistry.def j')
      = Some (F32.of_Z 35).
Proof.
  eexists. split; [reflexivity|]. split; [eexists; reflexivity|].
  edestruct (setters_keep_impulses JointRegistry.T_maxMotorForce (b2JointId.mk 2 0 1)
               (F32.of_Z 35) registry1) as [(reg' & j' & H1 & H2 & H3 & H4 & _) _];
    [reflexivity | eexists; reflexivity |].
  exists reg', j'. auto.
Defined.

(** A wheel setter keeps every joint of the registry in place, with its
    accumulated impulses and its revision. *)
Lemma set_preserves s id v (reg reg' : gmap Z JointRegistry.b2Joint) k j :
  JointRegistry.set s id v reg = inr reg' ->
  reg !! k = Some j ->
  exists j', reg' !! k = Some j' /\
             JointRegistry.accumulated j' = JointRegistry.accumulated j /\
             JointRegistry.revision j' = JointRegistry.revision j.
Proof.
  unfold JointRegistry.set. intros Hs Hk.
  destruct (set_tunable_preserves _ _ id v reg reg' k j Hs Hk) as (j' & H1 & H2 & H3 & _).
  exists j'. auto.
Qed.

Lemma apply_setters_preserve calls :
  forall (reg : gmap Z JointRegistry.b2Joint) k j,
    reg !! k = Some j ->
    exists j', fold_left apply_setter calls reg !! k = Some j' /\
               JointRegistry.accumulated j' = JointRegistry.accumulated j /\
               JointRegistry.revision j' = JointRegistry.revision j.
Proof.
  induction calls as [|[[s id] v] calls IH]; intros reg k j Hk; cbn [fold_left].
  - exists j. auto.
  - unfold apply_setter at 2.
    destruct (JointRegistry.set s id v reg) as [e|reg'] eqn:E.
    + apply IH, Hk.
    + destruct (set_preserves s id v reg reg' k j E Hk) as (j1 & H1 & Ha & Hr).
      destruct (IH reg' k j1 H1) as (j' & H' & Ha' & Hr').
      exists j'. split; [exact H'|]. split; congruence.
Qed.

(** The setters of the car (car.cpp:123-146) call the setters of the two
    axle joints and nothing else that touches a joint: whatever the
    registry, every joint keeps its accumulated impulses. *)
Lemma Car_setters_keep_impulses (W : Type) (h : handler W) (w : W) (c : Car.t)
    (m : Car.method) (reg : gmap Z JointRegistry.b2Joint) k j :
  reg !! k = Some j ->
  exists j', apply_setters (trace (run h (Car.body_of m c) w)) reg !! k = Some j' /\
             JointRegistry.accumulated j' = JointRegistry.accumulated j.
Proof.
  intros Hk. unfold apply_setters.
  destruct (apply_setters_preserve (omap setter_call (trace (run h (Car.body_of m c) w)))
              reg k j Hk) as (j' & H' & Ha & _).
  exists j'. auto.
Qed.

(** Which setters each method of the car calls, and on which joints. *)
Lemma Car_setter_calls (W : Type) (h : handler W) (w : W) (c : Car.t) (v : float) :
  omap setter_call (trace (run h (Car.SetSpeed c v) w))
    = [(JointRegistry.SetMotorSpeed, Car.m_rearAxleId c, v);
       (JointRegistry.SetMotorSpeed, Car.m_frontAxleId c, v)] /\
  omap setter_call (trace (run h (Car.SetTorque c v) w))
    = [(JointRegistry.SetMaxMotorTorque, Car.m_rearAxleId c, v);
       (JointRegistry.SetMaxMotorTorque, Car.m_frontAxleId c, v)] /\
  omap setter_call (trace (run h (Car.SetHertz c v) w))
    = [(JointRegistry.SetSpringHertz, Car.m_rearAxleId c, v);
       (JointRegistry.SetSpringHertz, Car.m_frontAxleId c, v)] /\
  omap setter_call (trace (run h (Car.SetDampingRadio c v) w))
    = [(JointRegistry.SetSpringDampingRatio, Car.m_rearAxleId c, v);
       (JointRegistry.SetSpringDampingRatio, Car.m_frontAxleId c, v)].
Proof.
  destruct c as [ch rw fw ra fa sp].
  remember (run h (Car.SetSpeed _ v) w) as o1 eqn:H1.
  remember (run h (Car.SetTorque _ v) w) as o2 eqn:H2.
  remember (run h (Car.SetHertz _ v) w) as o3 eqn:H3.
  remember (run h (Car.SetDampingRadio _ v) w) as o4 eqn:H4.
  run_to_end o1 H1. run_to_end o2 H2. run_to_end o3 H3. run_to_end o4 H4.
  repeat split.
Qed.

(* ===================================================================== *)
(** * samples/car.cpp: further properties                                 *)
(* ===================================================================== *)

Lemma Spawn_returns_unflagged (W : Type) (h : handler W) (w : W) (c c' : Car.t)
    worldId position scale hertz dampingRatio torque userData :
  result (run h (Car.Spawn c worldId position scale hertz dampingRatio torque userData) w)
    = Returned c' ->
  Car.m_isSpawned c' = false.
Proof.
  intros H. destruct (Car.Spawn_asserts c) eqn:Ha.
  - destruct (Spawn_outcome W h w c worldId position scale hertz dampingRatio torque
                userData Ha) as (c2 & _ & _ & Hres & Hflag & _).
    congruence.
  - destruct (Spawn_aborts W h w c worldId position scale hertz dampingRatio torque
                userData Ha) as (e & He).
    rewrite He in H. discriminate.
Qed.

Lemma Despawn_returns_flagged (W : Type) (h : handler W) (w : W) (c c' : Car.t) :
  result (run h (Car.Despawn c) w) = Returned c' -> Car.m_isSpawned c = true.
Proof.
  destruct (Car.m_isSpawned c) eqn:E; [reflexivity|].
  rewrite Despawn_aborts by exact E. discriminate.
Qed.

Lemma reachable_unflagged c : reachable c -> Car.m_isSpawned c = false.
Proof.
  induction 1 as [|c c' m W h w Hc IH Hrun|c c' W h w wi p s hz dr t ud Hc IH Hrun].
  - reflexivity.
  - destruct m; try (rewrite (setters_keep_car W h w c c' _ Hrun); [exact IH|discriminate]).
    cbn [Car.body_of] in Hrun. apply Despawn_returns_flagged in Hrun. congruence.
  - eapply Spawn_returns_unflagged, Hrun.
Qed.

(** X1. Whatever methods a car is taken through, [Spawn] included and in
    whatever worlds, [m_isSpawned] stays false: no method sets it.  So
    [Despawn] always stops at its assertion, and a car never destroys a
    joint or a body. *)
Theorem car_never_destroys (c : Car.t) :
  reachable c ->
  Car.m_isSpawned c = false /\
  forall (W : Type) (h : handler W) (w : W) (m : Car.method) worldId position
         scale hertz dampingRatio torque userData,
    omap destroyed (trace (run h (Car.body_of m c) w)) = [] /\
    omap destroyed
      (trace (run h (Car.Spawn c worldId position scale hertz dampingRatio torque userData) w))
      = [].
Proof.
  intros Hr. pose proof (reachable_unflagged c Hr) as Hflag.
  split; [exact Hflag|].
  intros W h w m worldId position scale hertz dampingRatio torque userData. split.
  - destruct m.
    + cbn [Car.body_of]. rewrite Despawn_aborts by exact Hflag. reflexivity.
    + remember (run h _ w) as o eqn:Ho. cbn [Car.body_of] in Ho. run_to_end o Ho. reflexivity.
    + remember (run h _ w) as o eqn:Ho. cbn [Car.body_of] in Ho. run_to_end o Ho. reflexivity.
    + remember (run h _ w) as o eqn:Ho. cbn [Car.body_of] in Ho. run_to_end o Ho. reflexivity.
    + remember (run h _ w) as o eqn:Ho. cbn [Car.body_of] in Ho. run_to_end o Ho. reflexivity.
  - destruct (Car.Spawn_asserts c) eqn:Ha.
    + clear Hr Hflag. open_car c Ha.
      remember (run h _ w) as o eqn:Ho. run_to_end o Ho. reflexivity.
    + destruct (Spawn_aborts W h w c worldId position scale hertz dampingRatio torque
                  userData Ha) as (e & ->). reflexivity.
Qed.

Lemma reachable_car1 : reachable TestWorld.car1.
Proof.
  apply (reachable_spawn Car.Car TestWorld.car1 TestWorld.t TestWorld.handle
           TestWorld.empty TestWorld.world1 TestWorld.origin F32.one (F32.of_Z 5)
           (F32.dec 7 1) (F32.dec 25 1) 0).
  - exact reachable_new.
  - reflexivity.
Defined.

Lemma car_never_destroys_witness :
  reachable TestWorld.car1 /\
  Car.m_isSpawned TestWorld.car1 = false /\
  forall (W : Type) (h : handler W) (w : W) (m : Car.method) worldId position
         scale hertz dampingRatio torque userData,
    omap destroyed (trace (run h (Car.body_of m TestWorld.car1) w)) = [] /\
    omap destroyed
      (trace (run h (Car.Spawn TestWorld.car1 worldId position scale hertz dampingRatio
                       torque userData) w))
      = [].
Proof.
  split; [exact reachable_car1|].
  apply (car_never_destroys TestWorld.car1). exact reachable_car1.
Defined.

(** X2. After a [Spawn] that ran to its end, a second [Spawn] passes its
    assertions exactly when the world handed out null ids for all three
    bodies; with a chassis id that is not null it stops at
    [assert(B2_IS_NULL(m_chassisId))], before any call and whatever its
    arguments. *)
Theorem Spawn_twice (W : Type) (h : handler W) (w : W) (c : Car.t)
    worldId position scale hertz dampingRatio torque userData :
  Car.Spawn_asserts c = true ->
  exists c',
    result (run h (Car.Spawn c worldId position scale hertz dampingRatio torque userData) w)
      = Returned c' /\
    Car.Spawn_asserts c'
      = b2BodyId.B2_IS_NULL (Car.m_chassisId c')
        && b2BodyId.B2_IS_NULL (Car.m_frontWheelId c')
        && b2BodyId.B2_IS_NULL (Car.m_rearWheelId c') /\
    (b2BodyId.B2_IS_NULL (Car.m_chassisId c') = false ->
     forall (W' : Type) (h' : handler W') (w' : W') worldId' position'
            scale' hertz' dampingRatio' torque' userData',
       run h' (Car.Spawn c' worldId' position' scale' hertz' dampingRatio' torque' userData') w'
       = mkOutcome (Aborted "B2_IS_NULL(m_chassisId)") w' []).
Proof.
  intros H.
  destruct (Spawn_outcome W h w c worldId position scale hertz dampingRatio torque
              userData H) as (c' & _ & _ & Hres & Hflag & _).
  exists c'. split; [exact Hres|]. split.
  - unfold Car.Spawn_asserts. rewrite Hflag. reflexivity.
  - intros Hn W' h' w' worldId' position' scale' hertz' dampingRatio' torque' userData'.
    unfold Car.Spawn. rewrite Hflag, Hn. reflexivity.
Qed.

Lemma Spawn_twice_witness :
  Car.Spawn_asserts Car.Car = true /\
  exists c',
    result TestWorld.spawned = Returned c' /\
    Car.Spawn_asserts c'
      = b2BodyId.B2_IS_NULL (Car.m_chassisId c')
        && b2BodyId.B2_IS_NULL (Car.m_frontWheelId c')
        && b2BodyId.B2_IS_NULL (Car.m_rearWheelId c') /\
    (b2BodyId.B2_IS_NULL (Car.m_chassisId c') = false ->
     forall (W' : Type) (h' : handler W') (w' : W') worldId' position'
            scale' hertz' dampingRatio' torque' userData',
       run h' (Car.Spawn c' worldId' position' scale' hertz' dampingRatio' torque' userData') w'
       = mkOutcome (Aborted "B2_IS_NULL(m_chassisId)") w' []).
Proof.
  split; [reflexivity|].
  apply (Spawn_twice TestWorld.t TestWorld.handle TestWorld.empty Car.Car). reflexivity.
Defined.

(** X3. [Despawn] on a car whose flag is up makes five calls and no other:
    it destroys the rear axle joint, the front axle joint, then the rear
    wheel, the front wheel and the chassis -- the joints before the bodies
    they connect -- and hands the car back with the flag down. *)
Theorem Despawn_destroys_joints_first (W : Type) (h : handler W) (w : W) (c : Car.t) :
  Car.m_isSpawned c = true ->
  result (run h (Car.Despawn c) w) = Returned (Car.with_isSpawned false c) /\
  omap destroyed (trace (run h (Car.Despawn c) w))
    = [destroyed_joint (Car.m_rearAxleId c); destroyed_joint (Car.m_frontAxleId c);
       destroyed_body (Car.m_rearWheelId c); destroyed_body (Car.m_frontWheelId c);
       destroyed_body (Car.m_chassisId c)] /\
  length (trace (run h (Car.Despawn c) w)) = 5%nat.
Proof.
  intros H. destruct c as [ch rw fw ra fa sp]. cbn in H. subst sp.
  remember (run h _ w) as o eqn:Ho. run_to_end o Ho. repeat split.
Qed.

Lemma Despawn_destroys_joints_first_witness :
  Car.m_isSpawned flagged_car1 = true /\
  result (run TestWorld.handle (Car.Despawn flagged_car1) TestWorld.empty)
    = Returned (Car.with_isSpawned false flagged_car1) /\
  omap destroyed (trace (run TestWorld.handle (Car.Despawn flagged_car1) TestWorld.empty))
    = [destroyed_joint (Car.m_rearAxleId flagged_car1);
       destroyed_joint (Car.m_frontAxleId flagged_car1);
       destroyed_body (Car.m_rearWheelId flagged_car1);
       destroyed_body (Car.m_frontWheelId flagged_car1);
       destroyed_body (Car.m_chassisId flagged_car1)] /\
  length (trace (run TestWorld.handle (Car.Despawn flagged_car1) TestWorld.empty)) = 5%nat.
Proof.
  split; [reflexivity|].
  apply (Despawn_destroys_joints_first TestWorld.t TestWorld.handle TestWorld.empty
           flagged_car1).
  reflexivity.
Defined.

(** X4. [Despawn] lowers the flag and keeps the five ids as they were: a
    second [Despawn] stops at [assert(m_isSpawned == true)], and a [Spawn]
    on the despawned car stops at [assert(B2_IS_NULL(m_chassisId))] when
    the chassis id was not null, since nothing resets it. *)
Theorem Despawn_keeps_stale_ids (W : Type) (h : handler W) (w : W) (c : Car.t) :
  Car.m_isSpawned c = true ->
  exists c',
    result (run h (Car.Despawn c) w) = Returned c' /\
    Car.m_chassisId c' = Car.m_chassisId c /\
    Car.m_rearWheelId c' = Car.m_rearWheelId c /\
    Car.m_frontWheelId c' = Car.m_frontWheelId c /\
    Car.m_rearAxleId c' = Car.m_rearAxleId c /\
    Car.m_frontAxleId c' = Car.m_frontAxleId c /\
    (forall (W' : Type) (h' : handler W') (w' : W'),
        run h' (Car.Despawn c') w' = mkOutcome (Aborted "m_isSpawned == true") w' []) /\
    (b2BodyId.B2_IS_NULL (Car.m_chassisId c) = false ->
     forall (W' : Type) (h' : handler W') (w' : W') worldId position
            scale hertz dampingRatio torque userData,
       run h' (Car.Spawn c' worldId position scale hertz dampingRatio torque userData) w'
       = mkOutcome (Aborted "B2_IS_NULL(m_chassisId)") w' []).
Proof.
  intros H. exists (Car.with_isSpawned false c).
  split.
  { destruct c as [ch rw fw ra fa sp]. cbn in H. subst sp.
    remember (run h _ w) as o eqn:Ho. run_to_end o Ho. reflexivity. }
  do 5 (split; [reflexivity|]).
  split.
  - intros W' h' w'. apply Despawn_aborts. reflexivity.
  - intros Hn W' h' w' worldId position scale hertz dampingRatio torque userData.
    unfold Car.Spawn. cbn [Car.with_isSpawned Car.m_isSpawned Car.m_chassisId].
    rewrite Hn. reflexivity.
Qed.

Lemma Despawn_keeps_stale_ids_witness :
  Car.m_isSpawned flagged_car1 = true /\
  b2BodyId.B2_IS_NULL (Car.m_chassisId flagged_car1) = false /\
  exists c',
    result (run TestWorld.handle (Car.Despawn flagged_car1) TestWorld.empty) = Returned c' /\
    Car.m_chassisId c' = Car.m_chassisId flagged_car1 /\
    Car.m_rearWheelId c' = Car.m_rearWheelId flagged_car1 /\
    Car.m_frontWheelId c' = Car.m_frontWheelId flagged_car1 /\
    Car.m_rearAxleId c' = Car.m_rearAxleId flagged_car1 /\
    Car.m_frontAxleId c' = Car.m_frontAxleId flagged_car1 /\
    (forall (W' : Type) (h' : handler W') (w' : W'),
        run h' (Car.Despawn c') w' = mkOutcome (Aborted "m_isSpawned == true") w' []) /\
    (b2BodyId.B2_IS_NULL (Car.m_chassisId flagged_car1) = false ->
     forall (W' : Type) (h' : handler W') (w' : W') worldId position
            scale hertz dampingRatio torque userData,
       run h' (Car.Spawn c' worldId position scale hertz dampingRatio torque userData) w'
       = mkOutcome (Aborted "B2_IS_NULL(m_chassisId)") w' []).
Proof.
  split; [reflexivity|]. split; [reflexivity|].
  apply (Despawn_keeps_stale_ids TestWorld.t TestWorld.handle TestWorld.empty flagged_car1).
  reflexivity.
Defined.

(** Find an event in an explicit trace. *)
Ltac in_trace := cbn [In]; repeat (first [left; reflexivity | right]).

(** X5. Both axle definitions start from the one answer of
    [b2DefaultWheelJointDef]: they keep its [enableSpring],
    [collideConnected] and [userData], take [hertz] and [dampingRatio] from
    the arguments of [Spawn], and have the chassis as body A.  The
    [userData] argument of [Spawn] is not used: any other value gives the
    same run. *)
Theorem Spawn_axle_defaults (W : Type) (h : handler W) (w : W) (c : Car.t)
    worldId position scale hertz dampingRatio torque userData :
  Car.Spawn_asserts c = true ->
  let o := run h (Car.Spawn c worldId position scale hertz dampingRatio torque userData) w in
  exists c' dflt dRear dFront,
    result o = Returned c' /\
    created_wheel_joints (trace o)
      = [(worldId, dRear, Car.m_rearAxleId c'); (worldId, dFront, Car.m_frontAxleId c')] /\
    In (Called b2DefaultWheelJointDef dflt) (trace o) /\
    Forall (fun d =>
              b2WheelJointDef.enableSpring d = b2WheelJointDef.enableSpring dflt /\
              b2WheelJointDef.collideConnected d = b2WheelJointDef.collideConnected dflt /\
              b2WheelJointDef.userData d = b2WheelJointDef.userData dflt /\
              b2WheelJointDef.hertz d = hertz /\
              b2WheelJointDef.dampingRatio d = dampingRatio /\
              b2WheelJointDef.bodyIdA d = Car.m_chassisId c')
           [dRear; dFront] /\
    forall userData',
      run h (Car.Spawn c worldId position scale hertz dampingRatio torque userData') w = o.
Proof.
  intros H o. subst o. open_car c H.
  remember (run h _ w) as o eqn:Ho.
  assert (Hu : forall userData',
             run h (Car.Spawn (Car.mk (b2BodyId.mk 0 cw cr) (b2BodyId.mk 0 rw rr)
                                 (b2BodyId.mk 0 fw fr) ra fa false)
                      worldId position scale hertz dampingRatio torque userData') w = o)
    by (intros; subst o; reflexivity).
  run_to_end o Ho.
  do 4 eexists.
  split; [reflexivity|]. split; [reflexivity|]. split; [in_trace|].
  split; [|exact Hu].
  repeat constructor.
Qed.

Lemma Spawn_axle_defaults_witness :
  Car.Spawn_asserts Car.Car = true /\
  exists c' dflt dRear dFront,
    result TestWorld.spawned = Returned c' /\
    created_wheel_joints (trace TestWorld.spawned)
      = [(TestWorld.world1, dRear, Car.m_rearAxleId c');
         (TestWorld.world1, dFront, Car.m_frontAxleId c')] /\
    In (Called b2DefaultWheelJointDef dflt) (trace TestWorld.spawned) /\
    Forall (fun d =>
              b2WheelJointDef.enableSpring d = b2WheelJointDef.enableSpring dflt /\
              b2WheelJointDef.collideConnected d = b2WheelJointDef.collideConnected dflt /\
              b2WheelJointDef.userData d = b2WheelJointDef.userData dflt /\
              b2WheelJointDef.hertz d = F32.of_Z 5 /\
              b2WheelJointDef.dampingRatio d = F32.dec 7 1 /\
              b2WheelJointDef.bodyIdA d = Car.m_chassisId c')
           [dRear; dFront] /\
    forall userData',
      run TestWorld.handle
        (Car.Spawn Car.Car TestWorld.world1 TestWorld.origin F32.one (F32.of_Z 5)
           (F32.dec 7 1) (F32.dec 25 1) userData') TestWorld.empty
      = TestWorld.spawned.
Proof.
  split; [reflexivity|].
  apply (Spawn_axle_defaults TestWorld.t TestWorld.handle TestWorld.empty Car.Car
           TestWorld.world1 TestWorld.origin F32.one (F32.of_Z 5) (F32.dec 7 1)
           (F32.dec 25 1) 0).
  reflexivity.
Defined.

(** X6. Each axle joint is anchored at the position of its wheel: the pivot
    is what the world answers for [b2Body_GetPosition] of the wheel, and
    the two local anchors are that point in the frame of the chassis and in
    the frame of the wheel.  The axis of both is the world vector (0, 1)
    taken into the frame of the chassis. *)
Theorem Spawn_axle_anchors (W : Type) (h : handler W) (w : W) (c : Car.t)
    worldId position scale hertz dampingRatio torque userData :
  Car.Spawn_asserts c = true ->
  let o := run h (Car.Spawn c worldId position scale hertz dampingRatio torque userData) w in
  exists c' dRear dFront pivotRear pivotFront,
    result o = Returned c' /\
    created_wheel_joints (trace o)
      = [(worldId, dRear, Car.m_rearAxleId c'); (worldId, dFront, Car.m_frontAxleId c')] /\
    In (Called (b2Body_GetPosition (Car.m_rearWheelId c')) pivotRear) (trace o) /\
    In (Called (b2Body_GetLocalPoint (Car.m_chassisId c') pivotRear)
               (b2WheelJointDef.localAnchorA dRear)) (trace o) /\
    In (Called (b2Body_GetLocalPoint (Car.m_rearWheelId c') pivotRear)
               (b2WheelJointDef.localAnchorB dRear)) (trace o) /\
    In (Called (b2Body_GetPosition (Car.m_frontWheelId c')) pivotFront) (trace o) /\
    In (Called (b2Body_GetLocalPoint (Car.m_chassisId c') pivotFront)
               (b2WheelJointDef.localAnchorA dFront)) (trace o) /\
    In (Called (b2Body_GetLocalPoint (Car.m_frontWheelId c') pivotFront)
               (b2WheelJointDef.localAnchorB dFront)) (trace o) /\
    In (Called (b2Body_GetLocalVector (Car.m_chassisId c') (mkVec2 F32.zero F32.one))
               (b2WheelJointDef.localAxisA dRear)) (trace o) /\
    In (Called (b2Body_GetLocalVector (Car.m_chassisId c') (mkVec2 F32.zero F32.one))
               (b2WheelJointDef.localAxisA dFront)) (trace o).
Proof.
  intros H o. subst o. open_car c H.
  remember (run h _ w) as o eqn:Ho. run_to_end o Ho.
  do 5 eexists.
  split; [reflexivity|]. split; [reflexivity|].
  repeat (split; [in_trace|]). in_trace.
Qed.

Lemma Spawn_axle_anchors_witness :
  Car.Spawn_asserts Car.Car = true /\
  exists c' dRear dFront pivotRear pivotFront,
    result TestWorld.spawned = Returned c' /\
    created_wheel_joints (trace TestWorld.spawned)
      = [(TestWorld.world1, dRear, Car.m_rearAxleId c');
         (TestWorld.world1, dFront, Car.m_frontAxleId c')] /\
    In (Called (b2Body_GetPosition (Car.m_rearWheelId c')) pivotRear)
       (trace TestWorld.spawned) /\
    In (Called (b2Body_GetLocalPoint (Car.m_chassisId c') pivotRear)
               (b2WheelJointDef.localAnchorA dRear)) (trace TestWorld.spawned) /\
    In (Called (b2Body_GetLocalPoint (Car.m_rearWheelId c') pivotRear)
               (b2WheelJointDef.localAnchorB dRear)) (trace TestWorld.spawned) /\
    In (Called (b2Body_GetPosition (Car.m_frontWheelId c')) pivotFront)
       (trace TestWorld.spawned) /\
    In (Called (b2Body_GetLocalPoint (Car.m_chassisId c') pivotFront)
               (b2WheelJointDef.localAnchorA dFront)) (trace TestWorld.spawned) /\
    In (Called (b2Body_GetLocalPoint (Car.m_frontWheelId c') pivotFront)
               (b2WheelJointDef.localAnchorB dFront)) (trace TestWorld.spawned) /\
    In (Called (b2Body_GetLocalVector (Car.m_chassisId c') (mkVec2 F32.zero F32.one))
               (b2WheelJointDef.localAxisA dRear)) (trace TestWorld.spawned) /\
    In (Called (b2Body_GetLocalVector (Car.m_chassisId c') (mkVec2 F32.zero F32.one))
               (b2WheelJointDef.localAxisA dFront)) (trace TestWorld.spawned).
Proof.
  split; [reflexivity|].
  apply (Spawn_axle_anchors TestWorld.t TestWorld.handle TestWorld.empty Car.Car
           TestWorld.world1 TestWorld.origin F32.one (F32.of_Z 5) (F32.dec 7 1)
           (F32.dec 25 1) 0).
  reflexivity.
Defined.

(** X7. [Spawn] creates exactly three bodies, in the world it is given and
    in the order chassis, rear wheel, front wheel; all three are dynamic,
    their ids are the ones the car and the axle joints then hold, and each
    is placed where [b2Add] puts the offset (0, 1) * scale, (-1, 0.35) *
    scale or (1, 0.4) * scale from [position]. *)
Theorem Spawn_bodies (W : Type) (h : handler W) (w : W) (c : Car.t)
    worldId position (s : float) hertz dampingRatio torque userData :
  Car.Spawn_asserts c = true ->
  let o := run h (Car.Spawn c worldId position s hertz dampingRatio torque userData) w in
  exists c' dChassis dRear dFront,
    result o = Returned c' /\
    omap created_body (trace o)
      = [(worldId, dChassis, Car.m_chassisId c'); (worldId, dRear, Car.m_rearWheelId c');
         (worldId, dFront, Car.m_frontWheelId c')] /\
    Forall (fun d => b2BodyDef.type d = b2_dynamicBody) [dChassis; dRear; dFront] /\
    In (Called (b2Add (mkVec2 F32.zero (F32.mul F32.one s)) position)
               (b2BodyDef.position dChassis)) (trace o) /\
    In (Called (b2Add (mkVec2 (F32.mul (F32.neg F32.one) s) (F32.mul (F32.dec 35 2) s))
                      position)
               (b2BodyDef.position dRear)) (trace o) /\
    In (Called (b2Add (mkVec2 (F32.mul F32.one s) (F32.mul (F32.dec 4 1) s)) position)
               (b2BodyDef.position dFront)) (trace o) /\
    map (fun j => b2WheelJointDef.bodyIdB (snd (fst j))) (created_wheel_joints (trace o))
      = [Car.m_rearWheelId c'; Car.m_frontWheelId c'].
Proof.
  intros H o. subst o. open_car c H.
  remember (run h _ w) as o eqn:Ho. run_to_end o Ho.
  do 4 eexists.
  split; [reflexivity|]. split; [reflexivity|].
  split; [repeat constructor|].
  repeat (split; [in_trace|]). reflexivity.
Qed.

Lemma Spawn_bodies_witness :
  Car.Spawn_asserts Car.Car = true /\
  exists c' dChassis dRear dFront,
    result TestWorld.spawned = Returned c' /\
    omap created_body (trace TestWorld.spawned)
      = [(TestWorld.world1, dChassis, Car.m_chassisId c');
         (TestWorld.world1, dRear, Car.m_rearWheelId c');
         (TestWorld.world1, dFront, Car.m_frontWheelId c')] /\
    Forall (fun d => b2BodyDef.type d = b2_dynamicBody) [dChassis; dRear; dFront] /\
    In (Called (b2Add (mkVec2 F32.zero (F32.mul F32.one F32.one)) TestWorld.origin)
               (b2BodyDef.position dChassis)) (trace TestWorld.spawned) /\
    In (Called (b2Add (mkVec2 (F32.mul (F32.neg F32.one) F32.one)
                              (F32.mul (F32.dec 35 2) F32.one)) TestWorld.origin)
               (b2BodyDef.position dRear)) (trace TestWorld.spawned) /\
    In (Called (b2Add (mkVec2 (F32.mul F32.one F32.one) (F32.mul (F32.dec 4 1) F32.one))
                      TestWorld.origin)
               (b2BodyDef.position dFront)) (trace TestWorld.spawned) /\
    map (fun j => b2WheelJointDef.bodyIdB (snd (fst j)))
        (created_wheel_joints (trace TestWorld.spawned))
      = [Car.m_rearWheelId c'; Car.m_frontWheelId c'].
Proof.
  split; [reflexivity|].
  apply (Spawn_bodies TestWorld.t TestWorld.handle TestWorld.empty Car.Car
           TestWorld.world1 TestWorld.origin F32.one (F32.of_Z 5) (F32.dec 7 1)
           (F32.dec 25 1) 0).
  reflexivity.
Defined.

Lemma for_loop_scale_app s (l pre : list b2Vec2) :
  for_loop (length pre) (length l) (Car.scale_vertex s) (pre ++ l)
  = pre ++ map (scale_by s) l.
Proof.
  revert pre. induction l as [|v l IH]; intros pre; [reflexivity|].
  cbn [length for_loop map].
  assert (Hv : Car.scale_vertex s (length pre) (pre ++ v :: l) = (pre ++ [scale_by s v]) ++ l).
  { unfold Car.scale_vertex.
    rewrite <- (Nat.add_0_r (length pre)). rewrite !alter_app_r. cbn.
    rewrite <- app_assoc. reflexivity. }
  rewrite Hv.
  replace (S (length pre)) with (length (pre ++ [scale_by s v]))
    by (rewrite length_app; cbn; lia).
  rewrite IH. rewrite <- app_assoc. reflexivity.
Qed.

(** X8. The scaling loop, run over a whole array, multiplies both
    coordinates of every vertex by [scale], each vertex once and in place:
    the array keeps its length and its order. *)
Theorem scaling_loop_is_map (s : float) (vs : list b2Vec2) :
  for_loop 0 (length vs) (Car.scale_vertex s) vs = map (scale_by s) vs /\
  length (for_loop 0 (length vs) (Car.scale_vertex s) vs) = length vs.
Proof.
  pose proof (for_loop_scale_app s vs []) as H. cbn [length app] in H.
  rewrite H. split; [reflexivity|]. apply length_map.
Qed.

(** X9. [Spawn] gives the chassis one polygon shape and each wheel one
    circle shape, in that order.  The polygon is made, with radius 0, from
    the hull of the six scaled outline vertices; the chassis shape has
    density [1 / scale] and friction 0.2.  Both wheels get the same shape
    definition, density [2 / scale] and friction 1.5, and the same circle,
    centred at the wheel's origin with radius [0.4 * scale]. *)
Theorem Spawn_shapes (W : Type) (h : handler W) (w : W) (c : Car.t)
    worldId position (s : float) hertz dampingRatio torque userData :
  Car.Spawn_asserts c = true ->
  let o := run h (Car.Spawn c worldId position s hertz dampingRatio torque userData) w in
  exists c' sdChassis sdWheel hull polygon,
    result o = Returned c' /\
    omap created_shape (trace o)
      = [(Car.m_chassisId c', sdChassis, polygon_shape polygon);
         (Car.m_rearWheelId c', sdWheel,
          circle_shape (mkCircle (mkVec2 F32.zero F32.zero) (F32.mul (F32.dec 4 1) s)));
         (Car.m_frontWheelId c', sdWheel,
          circle_shape (mkCircle (mkVec2 F32.zero F32.zero) (F32.mul (F32.dec 4 1) s)))] /\
    In (Called (b2ComputeHull (map (scale_by s) Car.chassis_vertices) 6) hull) (trace o) /\
    In (Called (b2MakePolygon hull F32.zero) polygon) (trace o) /\
    b2ShapeDef.density sdChassis = F32.div F32.one s /\
    b2ShapeDef.friction sdChassis = F32.dec 2 1 /\
    b2ShapeDef.density sdWheel = F32.div (F32.of_Z 2) s /\
    b2ShapeDef.friction sdWheel = F32.dec 15 1.
Proof.
  intros H o. subst o. open_car c H.
  remember (run h _ w) as o eqn:Ho. run_to_end o Ho.
  do 5 eexists.
  split; [reflexivity|]. split; [reflexivity|].
  split; [in_trace|]. split; [in_trace|].
  repeat split.
Qed.

Lemma Spawn_shapes_witness :
  Car.Spawn_asserts Car.Car = true /\
  exists c' sdChassis sdWheel hull polygon,
    result TestWorld.spawned = Returned c' /\
    omap created_shape (trace TestWorld.spawned)
      = [(Car.m_chassisId c', sdChassis, polygon_shape polygon);
         (Car.m_rearWheelId c', sdWheel,
          circle_shape (mkCircle (mkVec2 F32.zero F32.zero) (F32.mul (F32.dec 4 1) F32.one)));
         (Car.m_frontWheelId c', sdWheel,
          circle_shape (mkCircle (mkVec2 F32.zero F32.zero) (F32.mul (F32.dec 4 1) F32.one)))] /\
    In (Called (b2ComputeHull (map (scale_by F32.one) Car.chassis_vertices) 6) hull)
       (trace TestWorld.spawned) /\
    In (Called (b2MakePolygon hull F32.zero) polygon) (trace TestWorld.spawned) /\
    b2ShapeDef.density sdChassis = F32.div F32.one F32.one /\
    b2ShapeDef.friction sdChassis = F32.dec 2 1 /\
    b2ShapeDef.density sdWheel = F32.div (F32.of_Z 2) F32.one /\
    b2ShapeDef.friction sdWheel = F32.dec 15 1.
Proof.
  split; [reflexivity|].
  apply (Spawn_shapes TestWorld.t TestWorld.handle TestWorld.empty Car.Car
           TestWorld.world1 TestWorld.origin F32.one (F32.of_Z 5) (F32.dec 7 1)
           (F32.dec 25 1) 0).
  reflexivity.
Defined.

Lemma ltb_zero_cases s :
  F32.ltb s F32.zero = true ->
  s = S754_infinity true \/ exists m e, s = S754_finite true m e.
Proof.
  unfold F32.ltb, SFltb, F32.zero.
  destruct s as [z|[]| |[] m e]; simpl; intros H; try discriminate; eauto.
Qed.

Lemma leb_self_opp u : signed true u -> F32.leb u (F32.neg u) = true.
Proof.
  destruct u as [z|z| |z m e]; simpl; intros H; try contradiction; subst; reflexivity.
Qed.

(** [0.25f * s <= -0.25f * s] for every [s < 0]. *)
Lemma quarter_scale_inverted s :
  F32.ltb s F32.zero = true ->
  F32.leb (F32.mul (F32.dec 25 2) s) (F32.mul (F32.neg (F32.dec 25 2)) s) = true.
Proof.
  intros H. unfold F32.mul, F32.neg. rewrite SFmul_opp_l.
  change (F32.dec 25 2) with (S754_finite false 8388608 (-25)).
  destruct (ltb_zero_cases s H) as [->|(m & e & ->)].
  - reflexivity.
  - apply leb_self_opp. simpl. apply binary_round_aux_signed. lia.
Qed.

(** The opposite of a number is a number. *)
Lemma neg_number a : F32.is_nan a = false -> F32.is_nan (F32.neg a) = false.
Proof. destruct a; simpl; intros H; try discriminate; reflexivity. Qed.

Lemma axle_settings_opposite s torque d :
  axle_settings s torque d -> opposite_limits s d.
Proof.
  intros Hd. unfold opposite_limits, limits_ordered. cbv zeta.
  rewrite (set_lowerTranslation _ _ _ Hd), (set_upperTranslation _ _ _ Hd).
  assert (E : F32.mul (F32.neg (F32.dec 25 2)) s = F32.neg (F32.mul (F32.dec 25 2) s))
    by apply SFmul_opp_l.
  split; [|split; [|split]].
  - destruct (F32.is_nan s) eqn:Hn.
    + destruct s; try discriminate. reflexivity.
    + rewrite E. apply eqb_refl, neg_number, quarter_scale_number, Hn.
  - intros Hn. split; [exact E|].
    rewrite E. apply neg_number, quarter_scale_number, Hn.
  - intros Hs. pose proof (quarter_scale_inverted s Hs) as Hle.
    split; [exact Hle | apply leb_not_ltb, Hle].
  - intros Hn. destruct s; try discriminate. repeat split.
Qed.

(** X10. For every scale that is a number the two limits [Spawn] asks for
    are opposite, [lowerTranslation == -upperTranslation], and the
    comparison holds exactly for those scales.  For a negative scale they
    come out the wrong way round, [upperTranslation <= lowerTranslation],
    and [Spawn] passes them on as they are.  For a scale that is not a
    number both limits are not numbers either: they are not equal to one
    another's opposite, and neither is below or equal to the other. *)
Theorem Spawn_limits_any_scale (W : Type) (h : handler W) (w : W) (c : Car.t)
    worldId position (s : float) hertz dampingRatio torque userData :
  Car.Spawn_asserts c = true ->
  exists c' dRear dFront,
    created_wheel_joints
      (trace (run h (Car.Spawn c worldId position s hertz dampingRatio torque userData) w))
      = [(worldId, dRear, Car.m_rearAxleId c'); (worldId, dFront, Car.m_frontAxleId c')] /\
    Forall (opposite_limits s) [dRear; dFront].
Proof.
  intros H.
  destruct (Spawn_outcome W h w c worldId position s hertz dampingRatio torque userData H)
    as (c' & dR & dF & _ & _ & Htr & _ & _ & _ & _ & HR & HF).
  exists c', dR, dF. split; [exact Htr|].
  repeat constructor; apply (axle_settings_opposite s torque); assumption.
Qed.

Lemma Spawn_limits_any_scale_witness :
  Car.Spawn_asserts Car.Car = true /\
  F32.ltb (F32.neg F32.one) F32.zero = true /\
  exists c' dRear dFront,
    created_wheel_joints
      (trace (run TestWorld.handle
                (Car.Spawn Car.Car TestWorld.world1 TestWorld.origin (F32.neg F32.one)
                   (F32.of_Z 5) (F32.dec 7 1) (F32.dec 25 1) 0) TestWorld.empty))
      = [(TestWorld.world1, dRear, Car.m_rearAxleId c');
         (TestWorld.world1, dFront, Car.m_frontAxleId c')] /\
    Forall (opposite_limits (F32.neg F32.one)) [dRear; dFront].
Proof.
  split; [reflexivity|]. split; [reflexivity|].
  apply (Spawn_limits_any_scale TestWorld.t TestWorld.handle TestWorld.empty Car.Car).
  reflexivity.
Defined.

(** X11. The four setters never check the car: on any car, spawned or not,
    they run to their end, hand the car back unchanged, and pass the
    library no joint handle other than [m_rearAxleId] and [m_frontAxleId]
    as they are stored -- on a car whose axle ids are null, as after
    construction, every handle they pass is the null handle.  Every call
    they make is a call on a joint handle, so they create nothing -- no
    body, no shape, no joint -- and they destroy nothing. *)
Theorem setters_pass_stored_handles (W : Type) (h : handler W) (w : W) (c : Car.t)
    (m : Car.method) :
  m <> Car.CallDespawn ->
  let o := run h (Car.body_of m c) w in
  result o = Returned c /\
  Forall (fun j => j = Car.m_rearAxleId c \/ j = Car.m_frontAxleId c)
         (omap joint_handle (trace o)) /\
  (b2JointId.B2_IS_NULL (Car.m_rearAxleId c) = true ->
   b2JointId.B2_IS_NULL (Car.m_frontAxleId c) = true ->
   Forall (fun j => b2JointId.B2_IS_NULL j = true) (omap joint_handle (trace o))) /\
  omap joint_handle (trace o) <> [] /\
  Forall (fun e => is_Some (joint_handle e)) (trace o) /\
  omap created_body (trace o) = [] /\
  omap created_shape (trace o) = [] /\
  created_wheel_joints (trace o) = [] /\
  omap destroyed (trace o) = [].
Proof.
  intros Hm o. subst o. destruct c as [ch rw fw ra fa sp].
  destruct m; try congruence;
    remember (run h _ w) as o eqn:Ho; cbn [Car.body_of] in Ho; run_to_end o Ho;
    (split; [reflexivity|]); cbn;
    (split; [repeat constructor; auto|]);
    (split; [intros H1 H2; repeat constructor; assumption|]);
    (split; [discriminate|]);
    (split; [repeat constructor; eexists; reflexivity|]);
    repeat split.
Qed.

Lemma setters_pass_stored_handles_witness :
  Car.CallSetSpeed (F32.of_Z 35) <> Car.CallDespawn /\
  b2JointId.B2_IS_NULL (Car.m_rearAxleId Car.Car) = true /\
  b2JointId.B2_IS_NULL (Car.m_frontAxleId Car.Car) = true /\
  let o := run TestWorld.handle (Car.body_of (Car.CallSetSpeed (F32.of_Z 35)) Car.Car)
             TestWorld.empty in
  result o = Returned Car.Car /\
  Forall (fun j => j = Car.m_rearAxleId Car.Car \/ j = Car.m_frontAxleId Car.Car)
         (omap joint_handle (trace o)) /\
  (b2JointId.B2_IS_NULL (Car.m_rearAxleId Car.Car) = true ->
   b2JointId.B2_IS_NULL (Car.m_frontAxleId Car.Car) = true ->
   Forall (fun j => b2JointId.B2_IS_NULL j = true) (omap joint_handle (trace o))) /\
  omap joint_handle (trace o) <> [] /\
  Forall (fun e => is_Some (joint_handle e)) (trace o) /\
  omap created_body (trace o) = [] /\
  omap created_shape (trace o) = [] /\
  created_wheel_joints (trace o) = [] /\
  omap destroyed (trace o) = [].
Proof.
  split; [discriminate|]. split; [reflexivity|]. split; [reflexivity|].
  apply (setters_pass_stored_handles TestWorld.t TestWorld.handle TestWorld.empty Car.Car
           (Car.CallSetSpeed (F32.of_Z 35))).
  discriminate.
Defined.

(** X12. [Spawn] only creates: in a run that passes the assertions it makes
    24 calls, among them three body, three shape and two joint creations,
    the bodies before the joints; it destroys nothing and passes no joint
    handle back to the library. *)
Theorem Spawn_only_creates (W : Type) (h : handler W) (w : W) (c : Car.t)
    worldId position scale hertz dampingRatio torque userData :
  Car.Spawn_asserts c = true ->
  let tr := trace (run h (Car.Spawn c worldId position scale hertz dampingRatio torque
                            userData) w) in
  length tr = 24%nat /\
  length (omap created_body tr) = 3%nat /\
  length (omap created_shape tr) = 3%nat /\
  length (created_wheel_joints tr) = 2%nat /\
  omap created_body (drop 12 tr) = [] /\
  created_wheel_joints (take 12 tr) = [] /\
  omap destroyed tr = [] /\
  omap joint_handle tr = [].
Proof.
  intros H tr. subst tr. open_car c H.
  remember (run h _ w) as o eqn:Ho. run_to_end o Ho.
  repeat split.
Qed.

Lemma Spawn_only_creates_witness :
  Car.Spawn_asserts Car.Car = true /\
  let tr := trace TestWorld.spawned in
  length tr = 24%nat /\
  length (omap created_body tr) = 3%nat /\
  length (omap created_shape tr) = 3%nat /\
  length (created_wheel_joints tr) = 2%nat /\
  omap created_body (drop 12 tr) = [] /\
  created_wheel_joints (take 12 tr) = [] /\
  omap destroyed tr = [] /\
  omap joint_handle tr = [].
Proof.
  split; [reflexivity|].
  apply (Spawn_only_creates TestWorld.t TestWorld.handle TestWorld.empty Car.Car
           TestWorld.world1 TestWorld.origin F32.one (F32.of_Z 5) (F32.dec 7 1)
           (F32.dec 25 1) 0).
  reflexivity.
Defined.

(** X15. [Spawn] checks, in this order, that the flag is down and that the
    chassis, the front wheel and the rear wheel ids are null.  At the first
    check that fails it stops with that assertion, before any call: the
    world is as it was and nothing has been created. *)
Theorem Spawn_first_failed_assert (W : Type) (h : handler W) (w : W) (c : Car.t)
    worldId position scale hertz dampingRatio torque userData :
  Car.Spawn_asserts c = false ->
  let o := run h (Car.Spawn c worldId position scale hertz dampingRatio torque userData) w in
  world o = w /\ trace o = [] /\
  result o
  = Aborted
      (if Car.m_isSpawned c then "m_isSpawned == false"
       else if negb (b2BodyId.B2_IS_NULL (Car.m_chassisId c)) then "B2_IS_NULL(m_chassisId)"
       else if negb (b2BodyId.B2_IS_NULL (Car.m_frontWheelId c))
            then "B2_IS_NULL(m_frontWheelId)"
       else "B2_IS_NULL(m_rearWheelId)").
Proof.
  unfold Car.Spawn_asserts, Car.Spawn. intros H. cbv zeta.
  destruct (Car.m_isSpawned c); [repeat split|]. cbn [Bool.eqb] in *.
  destruct (b2BodyId.B2_IS_NULL (Car.m_chassisId c)); [|repeat split].
  destruct (b2BodyId.B2_IS_NULL (Car.m_frontWheelId c)); [|repeat split].
  destruct (b2BodyId.B2_IS_NULL (Car.m_rearWheelId c)); [discriminate|repeat split].
Qed.

Lemma Spawn_first_failed_assert_witness :
  Car.Spawn_asserts TestWorld.car1 = false /\
  let o := run TestWorld.handle
             (Car.Spawn TestWorld.car1 TestWorld.world1 TestWorld.origin F32.one
                (F32.of_Z 5) (F32.dec 7 1) (F32.dec 25 1) 0) TestWorld.empty in
  world o = TestWorld.empty /\ trace o = [] /\
  result o
  = Aborted
      (if Car.m_isSpawned TestWorld.car1 then "m_isSpawned == false"
       else if negb (b2BodyId.B2_IS_NULL (Car.m_chassisId TestWorld.car1))
            then "B2_IS_NULL(m_chassisId)"
       else if negb (b2BodyId.B2_IS_NULL (Car.m_frontWheelId TestWorld.car1))
            then "B2_IS_NULL(m_frontWheelId)"
       else "B2_IS_NULL(m_rearWheelId)").
Proof.
  split; [reflexivity|].
  apply (Spawn_first_failed_assert TestWorld.t TestWorld.handle TestWorld.empty
           TestWorld.car1).
  reflexivity.
Defined.

(* ===================================================================== *)
(** * include/box2d/joint_types.h: further properties                     *)
(* ===================================================================== *)

(** X13. Of the seven definitions exactly four have a motor, the distance,
    prismatic, revolute and wheel joint: these and no others declare
    [enableMotor] and [motorSpeed].  The distance and the prismatic joint
    have a linear one ([maxMotorForce] in newtons, [motorSpeed] in meters
    per second) and no [maxMotorTorque]; the revolute and the wheel joint
    a rotational one ([maxMotorTorque] in newton-meters, [motorSpeed] in
    radians per second) and no [maxMotorForce].  The motor, mouse and weld
    joint definitions declare neither [enableMotor] nor [motorSpeed], and
    neither of the two maxima. *)
Theorem motor_kind_of_each_joint (ty : b2JointType) :
  let ms := members_of ty in
  motor_of ms
  = match ty with
    | b2_distanceJoint | b2_prismaticJoint =>
        Some (linear_motor (Some newtons) (Some meters_per_second))
    | b2_revoluteJoint | b2_wheelJoint =>
        Some (rotational_motor (Some newton_meters) (Some radians_per_second))
    | b2_motorJoint | b2_mouseJoint | b2_weldJoint => None
    end /\
  declares ms "enableMotor"
  = match ty with
    | b2_distanceJoint | b2_prismaticJoint | b2_revoluteJoint | b2_wheelJoint => true
    | b2_motorJoint | b2_mouseJoint | b2_weldJoint => false
    end /\
  declares ms "motorSpeed" = declares ms "enableMotor" /\
  has_member ms c_bool "enableMotor" = declares ms "enableMotor" /\
  has_member ms c_float "motorSpeed" = declares ms "motorSpeed" /\
  declares ms "maxMotorForce"
  = match ty with
    | b2_distanceJoint | b2_prismaticJoint => true
    | _ => false
    end /\
  declares ms "maxMotorTorque"
  = match ty with
    | b2_revoluteJoint | b2_wheelJoint => true
    | _ => false
    end /\
  In ty all_joint_types /\
  filter (fun ty' => declares (members_of ty') "enableMotor") all_joint_types
  = [b2_distanceJoint; b2_prismaticJoint; b2_revoluteJoint; b2_wheelJoint] /\
  filter (fun ty' => negb (declares (members_of ty') "enableMotor")
                     && negb (declares (members_of ty') "motorSpeed")) all_joint_types
  = [b2_motorJoint; b2_mouseJoint; b2_weldJoint].
Proof.
  destruct ty; cbv zeta; do 7 (split; [reflexivity|]);
    (split; [cbn; tauto|]); split; reflexivity.
Qed.

(** X14. In every definition a switch comes with what it switches: there is
    an [enableLimit] exactly when there is a pair of bounds (the same
    definitions for which [limits_of] finds bounds), and an [enableSpring]
    only with a frequency and a damping ratio.  The distance, prismatic,
    revolute and wheel joint have both switches.  The mouse and the weld
    joint have spring parameters without a switch: they declare no
    [enableSpring], and no [enableLimit].  Only the motor joint has no
    spring parameters at all. *)
Theorem switches_come_with_parameters (d : b2JointDef) :
  let ms := members_of (joint_type_of d) in
  has_member ms c_bool "enableLimit" = has_limit_pair ms /\
  has_member ms c_bool "enableLimit" = bool_decide (is_Some (limits_of d)) /\
  (has_member ms c_bool "enableSpring" = true -> has_spring_pair ms = true) /\
  has_spring_pair ms = negb (bool_decide (hertz_of d = [])) /\
  has_spring_pair ms
  = match joint_type_of d with b2_motorJoint => false | _ => true end /\
  declares ms "enableSpring"
  = match joint_type_of d with
    | b2_distanceJoint | b2_prismaticJoint | b2_revoluteJoint | b2_wheelJoint => true
    | b2_motorJoint | b2_mouseJoint | b2_weldJoint => false
    end /\
  declares ms "enableLimit" = declares ms "enableSpring" /\
  has_member ms c_bool "enableSpring" = declares ms "enableSpring" /\
  has_member ms c_bool "enableLimit" = declares ms "enableLimit" /\
  filter (fun ty => has_spring_pair (members_of ty)
                    && negb (declares (members_of ty) "enableSpring")) all_joint_types
  = [b2_mouseJoint; b2_weldJoint].
Proof.
  destruct d; cbv zeta; cbn [joint_type_of limits_of hertz_of];
    (split; [reflexivity|]); (split; [reflexivity|]);
    (split; [intros Hs; try reflexivity; discriminate Hs|]);
    do 6 (split; [reflexivity|]); reflexivity.
Qed.

Lemma switches_come_with_parameters_witness :
  let ms := members_of (joint_type_of (WheelDef inverted_wheel)) in
  has_member ms c_bool "enableSpring" = true /\
  has_member ms c_bool "enableLimit" = has_limit_pair ms /\
  has_member ms c_bool "enableLimit"
  = bool_decide (is_Some (limits_of (WheelDef inverted_wheel))) /\
  (has_member ms c_bool "enableSpring" = true -> has_spring_pair ms = true) /\
  has_spring_pair ms = negb (bool_decide (hertz_of (WheelDef inverted_wheel) = [])) /\
  has_spring_pair ms
  = match joint_type_of (WheelDef inverted_wheel) with b2_motorJoint => false | _ => true end /\
  declares ms "enableSpring"
  = match joint_type_of (WheelDef inverted_wheel) with
    | b2_distanceJoint | b2_prismaticJoint | b2_revoluteJoint | b2_wheelJoint => true
    | b2_motorJoint | b2_mouseJoint | b2_weldJoint => false
    end /\
  declares ms "enableLimit" = declares ms "enableSpring" /\
  has_member ms c_bool "enableSpring" = declares ms "enableSpring" /\
  has_member ms c_bool "enableLimit" = declares ms "enableLimit" /\
  filter (fun ty => has_spring_pair (members_of ty)
                    && negb (declares (members_of ty) "enableSpring")) all_joint_types
  = [b2_mouseJoint; b2_weldJoint].
Proof.
  split; [reflexivity|].
  apply (switches_come_with_parameters (WheelDef inverted_wheel)).
Defined.
